(** * Device repository / service / controller: a shallow embedding

    The TypeScript sources embedded here are
    - [src/repositories/device.repository.ts]  (InMemoryDeviceRepository)
    - [src/services/device.service.ts]         (DeviceService)
    - [src/controllers/device.controller.ts]   (DeviceController)
    - the types, validation and response helpers ([DomainError] and its
      subclasses, [deviceUpdateSchema], [ValidationService],
      [ResponseBuilder]).

    Conventions of the embedding.
    - A JavaScript string is a [string]: the sequence of its code units
      (those below 256), so that [String.length] is the [.length] of the
      source.
    - A [Date] is the number of milliseconds since the epoch, a [Z].  Every
      [new Date()] / [Date.now()] of the source is a reading of the clock and
      appears as an explicit argument of the function that performs it; the
      same holds for [Math.random().toString(36)].
    - A [Promise] that resolves is the returned value, one that rejects is
      the thrown error: the in-memory code never suspends.
    - The backing [Map<string, Device>] is an association list in insertion
      order, as a JavaScript [Map] iterates.
    - Calls to the injected [ILogger] are left out: they return nothing,
      do not throw, and touch neither the store nor any returned value. *)

From Stdlib Require Import String Ascii List ZArith Bool Lia.
From Stdlib Require Import DecimalString DecimalZ.
Import ListNotations.
Open Scope string_scope.

(** ** Raw values and the domain model *)

(** A value as it reaches the service boundary: what [unknown] (and an
    identifier that is only claimed to be a [string]) ranges over.  The
    payload of a number is never inspected by the code below. *)
#[warnings="-register-all"]
Inductive JValue : Type :=
| JNull : JValue
| JBool : bool -> JValue
| JNum : Z -> JValue
| JStr : string -> JValue
| JArr : list JValue -> JValue
| JObj : list (string * JValue) -> JValue.

(** Own-property lookup [data[key]]; an absent key reads as [undefined],
    here [None]. *)
Fixpoint prop_get (key : string) (fields : list (string * JValue)) : option JValue :=
  match fields with
  | [] => None
  | (k, v) :: rest => if (k =? key)%string then Some v else prop_get key rest
  end.

Definition Date := Z.

Bind Scope Z_scope with Date.

Inductive DeviceType := AXIAL_FAN | DELUGE_VALVE | FIRE_PANEL | PUMP.

Inductive DeviceStatus := ONLINE | OFFLINE | MAINTENANCE | ERROR.

Record DeviceMetadata := mkMetadata {
  location : option string;
  manufacturer : option string;
  model : option string;
  version : option string
}.

Record Device := mkDevice {
  id : string;
  name : string;
  type : DeviceType;
  status : DeviceStatus;
  lastUpdate : Date;
  metadata : DeviceMetadata
}.

(** [Omit<Device, 'id'>], the argument of [create]. *)
Record DeviceData := mkDeviceData {
  data_name : string;
  data_type : DeviceType;
  data_status : DeviceStatus;
  data_lastUpdate : Date;
  data_metadata : DeviceMetadata
}.

(** [Partial<Device>]: every field may be absent. *)
Record PartialDevice := mkPartial {
  upd_id : option string;
  upd_name : option string;
  upd_type : option DeviceType;
  upd_status : option DeviceStatus;
  upd_lastUpdate : option Date;
  upd_metadata : option DeviceMetadata
}.

(** [DeviceUpdateRequest], the output type of the schema. *)
Record DeviceUpdateRequest := mkRequest {
  req_name : option string;
  req_status : option DeviceStatus;
  req_metadata : option DeviceMetadata
}.

Record ApiError := mkApiError {
  code : string;
  message : string;
  details : option (list (string * JValue))
}.

Record ApiResponse (T : Type) := mkResponse {
  success : bool;
  data : option T;
  error : option ApiError;
  timestamp : Date
}.

Arguments mkResponse {T} _ _ _ _.
Arguments success {T} _.
Arguments data {T} _.
Arguments error {T} _.
Arguments timestamp {T} _.

(** ** Errors

    An [Error] object with the properties the class hierarchy gives it;
    [err_code], [err_statusCode] and [err_field] are absent on a plain
    [Error]. *)
Record JsError := mkError {
  err_name : string;
  err_message : string;
  err_code : option string;
  err_statusCode : option Z;
  err_field : option string
}.

(** [new Error(message)] *)
Definition Error_ (msg : string) : JsError :=
  mkError "Error" msg None None None.

(** [new DomainError(message, code, statusCode)] *)
Definition DomainError (msg code : string) (statusCode : Z) : JsError :=
  mkError "DomainError" msg (Some code) (Some statusCode) None.

(** [new ValidationError(message, field?)]: [super(message,
    'VALIDATION_ERROR', 400)], then the name is overwritten. *)
Definition ValidationError (msg : string) (field : option string) : JsError :=
  let base := DomainError msg "VALIDATION_ERROR" 400 in
  mkError "ValidationError" (err_message base) (err_code base)
          (err_statusCode base) field.

(** [new NotFoundError(resource, id)] *)
Definition NotFoundError (resource ident : string) : JsError :=
  let base :=
    DomainError (resource ++ " with id '" ++ ident ++ "' not found")
                "NOT_FOUND" 404 in
  mkError "NotFoundError" (err_message base) (err_code base)
          (err_statusCode base) None.

(** ** The JavaScript [Map] backing the repository *)
Module JsMap.

Definition t (V : Type) := list (string * V).

Definition empty {V} : t V := [].

Fixpoint get {V} (k : string) (m : t V) : option V :=
  match m with
  | [] => None
  | (k', v) :: rest => if (k' =? k)%string then Some v else get k rest
  end.

Definition has {V} (k : string) (m : t V) : bool :=
  match get k m with Some _ => true | None => false end.

(** [set] keeps the position of a key already present and appends a new
    one. *)
Fixpoint set {V} (k : string) (v : V) (m : t V) : t V :=
  match m with
  | [] => [(k, v)]
  | (k', v') :: rest =>
      if (k' =? k)%string then (k, v) :: rest else (k', v') :: set k v rest
  end.

(** [delete] returns whether the key was present. *)
Definition delete {V} (k : string) (m : t V) : bool * t V :=
  (has k m, filter (fun kv => negb (fst kv =? k)%string) m).

Definition values {V} (m : t V) : list V := map snd m.

Definition keys {V} (m : t V) : list string := map fst m.

End JsMap.

(** ** Validation: [deviceUpdateSchema] and [ValidationService]

    The schema is built from the combinators of the zod library.  A parser
    returns its output or the first issue it raises, [issues[0]] being the
    only one the source reads; zod visits the keys of an object schema in
    declaration order. *)
Inductive ZodIssueCode := invalid_type | invalid_enum_value | too_small | too_big.

Record ZodIssue := mkIssue {
  issue_path : list string;
  issue_code : ZodIssueCode;
  issue_received : JValue
}.

Definition ZodResult (A : Type) : Type := (ZodIssue + A)%type.

Definition ZodParser (A : Type) : Type := list string -> JValue -> ZodResult A.

(** [z.string()] *)
Definition z_string : ZodParser string :=
  fun path v =>
    match v with
    | JStr s => inr s
    | _ => inl (mkIssue path invalid_type v)
    end.

(** [z.string().min(lo).max(hi)] *)
Definition z_string_min_max (lo hi : nat) : ZodParser string :=
  fun path v =>
    match z_string path v with
    | inl i => inl i
    | inr s =>
        if (String.length s <? lo)%nat then inl (mkIssue path too_small v)
        else if (hi <? String.length s)%nat then inl (mkIssue path too_big v)
        else inr s
    end.

(** [z.enum(['ONLINE', 'OFFLINE', 'MAINTENANCE', 'ERROR'])] *)
Definition z_enum_status : ZodParser DeviceStatus :=
  fun path v =>
    match v with
    | JStr s =>
        if (s =? "ONLINE")%string then inr ONLINE
        else if (s =? "OFFLINE")%string then inr OFFLINE
        else if (s =? "MAINTENANCE")%string then inr MAINTENANCE
        else if (s =? "ERROR")%string then inr ERROR
        else inl (mkIssue path invalid_enum_value v)
    | _ => inl (mkIssue path invalid_type v)
    end.

(** [schema.optional()] applied to the property [key] of an object: an absent
    property is accepted and stays absent. *)
Definition z_optional_key {A} (inner : ZodParser A) (path : list string)
    (key : string) (fields : list (string * JValue)) : ZodResult (option A) :=
  match prop_get key fields with
  | None => inr None
  | Some v =>
      match inner (path ++ [key])%list v with
      | inl i => inl i
      | inr a => inr (Some a)
      end
  end.

Definition zbind {A B} (r : ZodResult A) (k : A -> ZodResult B) : ZodResult B :=
  match r with
  | inl i => inl i
  | inr a => k a
  end.

Notation "x <-z r ;; k" := (zbind r (fun x => k))
  (at level 61, r at next level, right associativity).

(** The inner [z.object({location, manufacturer, model, version})]; keys
    outside the shape are stripped. *)
Definition z_metadata : ZodParser DeviceMetadata :=
  fun path v =>
    match v with
    | JObj fields =>
        l <-z z_optional_key z_string path "location" fields ;;
        m <-z z_optional_key z_string path "manufacturer" fields ;;
        o <-z z_optional_key z_string path "model" fields ;;
        r <-z z_optional_key z_string path "version" fields ;;
        inr (mkMetadata l m o r)
    | _ => inl (mkIssue path invalid_type v)
    end.

(** [deviceUpdateSchema.parse(data)] *)
Definition deviceUpdateSchema : JValue -> ZodResult DeviceUpdateRequest :=
  fun v =>
    match v with
    | JObj fields =>
        n <-z z_optional_key (z_string_min_max 1 100) [] "name" fields ;;
        s <-z z_optional_key z_enum_status [] "status" fields ;;
        m <-z z_optional_key z_metadata [] "metadata" fields ;;
        inr (mkRequest n s m)
    | _ => inl (mkIssue [] invalid_type v)
    end.

(** [a || b] on strings: the empty string is falsy. *)
Definition js_or (a b : string) : string :=
  match a with
  | EmptyString => b
  | _ => a
  end.

Module ValidationService.
Section WithMessages.

(** The text zod puts in [issue.message]. *)
Variable zod_message : ZodIssue -> string.

(** Only the [ZodError] branch of the [catch] can be taken: the parser
    raises nothing else. *)
Definition validateDeviceUpdate (data : JValue) : JsError + DeviceUpdateRequest :=
  match deviceUpdateSchema data with
  | inr r => inr r
  | inl issue =>
      let field := js_or (String.concat "." (issue_path issue)) "unknown" in
      let message := js_or (zod_message issue) "Validation failed" in
      inl (ValidationError ("Invalid " ++ field ++ ": " ++ message) (Some field))
  end.

End WithMessages.

(** [typeof id === 'string' && id.length > 0 && id.length <= 36] *)
Definition isValidId (id : JValue) : bool :=
  match id with
  | JStr s => (0 <? String.length s)%nat && (String.length s <=? 36)%nat
  | _ => false
  end.

End ValidationService.

(** ** Response envelopes *)
Module ResponseBuilder.

Definition success {T} (now : Date) (d : T) : ApiResponse T :=
  mkResponse true (Some d) None now.

Definition error {T} (now : Date) (e : ApiError) : ApiResponse T :=
  mkResponse false None (Some e) now.

Definition fromError {T} (now : Date) (e : JsError) : ApiResponse T :=
  let apiError := mkApiError (err_name e) (err_message e) None in
  error now apiError.

End ResponseBuilder.

(** ** The repository *)

(** The [IRepository<Device>] interface, over the state [S] an
    implementation owns.  A method that reads the clock or the random
    generator receives the reading. *)
Record IRepository (S : Type) := mkRepository {
  repo_findById : string -> S -> option Device * S;
  repo_findAll : S -> list Device * S;
  repo_create : Date -> string -> DeviceData -> S -> Device * S;
  repo_update : Date -> string -> PartialDevice -> S -> option Device * S;
  repo_delete : string -> S -> bool * S
}.

Arguments repo_findById {S} _ _ _.
Arguments repo_findAll {S} _ _.
Arguments repo_create {S} _ _ _ _ _.
Arguments repo_update {S} _ _ _ _ _.
Arguments repo_delete {S} _ _ _.

(** The template literal [`${n}`] of an integer, in plain decimal as
    JavaScript prints every value [Date.now()] can take. *)
Definition string_of_Z (n : Z) : string :=
  NilZero.string_of_int (Z.to_int n).

(** One property under a spread: a property the later object provides
    overwrites, an omitted one keeps the prior value. *)
Definition overwrite {A} (prior : A) (provided : option A) : A :=
  match provided with
  | Some v => v
  | None => prior
  end.

(** [{ ...existing, ...updates }] *)
Definition spread (existing : Device) (updates : PartialDevice) : Device :=
  mkDevice (overwrite (id existing) (upd_id updates))
           (overwrite (name existing) (upd_name updates))
           (overwrite (type existing) (upd_type updates))
           (overwrite (status existing) (upd_status updates))
           (overwrite (lastUpdate existing) (upd_lastUpdate updates))
           (overwrite (metadata existing) (upd_metadata updates)).

Module InMemoryDeviceRepository.

(** The private field [devices]. *)
Definition Store := JsMap.t Device.

Definition findById (key : string) (devices : Store) : option Device * Store :=
  (JsMap.get key devices, devices).

Definition findAll (devices : Store) : list Device * Store :=
  (JsMap.values devices, devices).

(** [`device_${Date.now()}_${Math.random().toString(36).substr(2, 9)}`];
    [random36] is [Math.random().toString(36)]. *)
Definition generateId (now : Date) (random36 : string) : string :=
  "device_" ++ string_of_Z now ++ "_" ++ substring 2 9 random36.

Definition create (now : Date) (random36 : string) (deviceData : DeviceData)
    (devices : Store) : Device * Store :=
  let key := generateId now random36 in
  let device :=
    mkDevice key (data_name deviceData) (data_type deviceData)
             (data_status deviceData) (data_lastUpdate deviceData)
             (data_metadata deviceData) in
  (device, JsMap.set key device devices).

Definition update (now : Date) (key : string) (updates : PartialDevice)
    (devices : Store) : option Device * Store :=
  match JsMap.get key devices with
  | None => (None, devices)
  | Some existing =>
      let merged := spread existing updates in
      let updated :=
        mkDevice key (name merged) (type merged) (status merged) now
                 (metadata merged) in
      (Some updated, JsMap.set key updated devices)
  end.

Definition delete (key : string) (devices : Store) : bool * Store :=
  JsMap.delete key devices.

(** The two [new Date()] of the sample literals are [t1] and [t2]. *)
Definition sampleDevices (t1 t2 : Date) : list Device :=
  [ mkDevice "device_001" "Axial Fan A1" AXIAL_FAN ONLINE t1
      (mkMetadata (Some "Building A") (Some "TechCorp") (Some "AF-100")
                  (Some "1.2.3"));
    mkDevice "device_002" "Fire Panel Main" FIRE_PANEL ONLINE t2
      (mkMetadata (Some "Control Room") (Some "SafeCorp") (Some "FP-200")
                  (Some "2.1.0")) ].

Definition seedData (t1 t2 : Date) (devices : Store) : Store :=
  fold_left (fun m device => JsMap.set (id device) device m)
            (sampleDevices t1 t2) devices.

(** [new InMemoryDeviceRepository(logger)] *)
Definition new (t1 t2 : Date) : Store :=
  seedData t1 t2 JsMap.empty.

Definition repository : IRepository Store :=
  mkRepository Store findById findAll create update delete.

End InMemoryDeviceRepository.

(** ** The service *)

(** A computation over the repository state that returns or throws. *)
Definition Action (S A : Type) : Type := S -> (JsError + A) * S.

Definition ret {S A} (a : A) : Action S A := fun s => (inr a, s).

Definition throw {S A} (e : JsError) : Action S A := fun s => (inl e, s).

Definition bind {S A B} (m : Action S A) (k : A -> Action S B) : Action S B :=
  fun s =>
    match m s with
    | (inl e, s') => (inl e, s')
    | (inr a, s') => k a s'
    end.

(** [await] of a repository method, which never rejects. *)
Definition await {S A} (op : S -> A * S) : Action S A :=
  fun s => let (a, s') := op s in (inr a, s').

(** A pure helper that returns or throws. *)
Definition lift {S A} (r : JsError + A) : Action S A :=
  fun s => (r, s).

Notation "x <- m ;; k" := (bind m (fun x => k))
  (at level 61, m at next level, right associativity).

Module DeviceService.
Section WithDependencies.

Context {S : Type}.
Variable repository : IRepository S.
Variable zod_message : ZodIssue -> string.

(** The guard narrows [id] to the string the rest of the method uses. *)
Definition validateId (ident : JValue) : Action S string :=
  if negb (ValidationService.isValidId ident) then
    throw (ValidationError "Invalid device ID format" (Some "id"))
  else
    match ident with
    | JStr s => ret s
    | _ => throw (ValidationError "Invalid device ID format" (Some "id"))
    end.

Definition getDevice (ident : JValue) : Action S Device :=
  key <- validateId ident ;;
  device <- await (repo_findById repository key) ;;
  match device with
  | None => throw (NotFoundError "Device" key)
  | Some d => ret d
  end.

(** [service_now] is the [new Date()] of the service, [repository_now]
    the clock reading inside [repository.update]. *)
Definition updateDevice (service_now repository_now : Date)
    (ident : JValue) (updates : JValue) : Action S Device :=
  key <- validateId ident ;;
  validatedUpdates <- lift (ValidationService.validateDeviceUpdate zod_message updates) ;;
  existingDevice <- await (repo_findById repository key) ;;
  match existingDevice with
  | None => throw (NotFoundError "Device" key)
  | Some _ =>
      updatedDevice <-
        await (repo_update repository repository_now key
                 (mkPartial None (req_name validatedUpdates) None
                            (req_status validatedUpdates) (Some service_now)
                            (req_metadata validatedUpdates))) ;;
      match updatedDevice with
      | None => throw (Error_ "Failed to update device")
      | Some d => ret d
      end
  end.

Definition listDevices : Action S (list Device) :=
  await (repo_findAll repository).

End WithDependencies.
End DeviceService.

(** ** The controller *)

Record GetDeviceRequest := mkGetRequest {
  get_id : JValue
}.

Record UpdateDeviceRequest := mkUpdateRequest {
  update_id : JValue;
  update_body : JValue
}.

Module DeviceController.
Section WithDependencies.

Context {S : Type}.
Variable repository : IRepository S.
Variable zod_message : ZodIssue -> string.

(** [response_now] is the [new Date()] of the envelope. *)
Definition getDevice (response_now : Date) (request : GetDeviceRequest)
    (s : S) : ApiResponse Device * S :=
  match DeviceService.getDevice repository (get_id request) s with
  | (inr device, s') => (ResponseBuilder.success response_now device, s')
  | (inl error, s') => (ResponseBuilder.fromError response_now error, s')
  end.

Definition updateDevice (service_now repository_now response_now : Date)
    (request : UpdateDeviceRequest) (s : S) : ApiResponse Device * S :=
  match DeviceService.updateDevice repository zod_message service_now
          repository_now (update_id request) (update_body request) s with
  | (inr device, s') => (ResponseBuilder.success response_now device, s')
  | (inl error, s') => (ResponseBuilder.fromError response_now error, s')
  end.

Definition listDevices (response_now : Date) (s : S)
    : ApiResponse (list Device) * S :=
  match DeviceService.listDevices repository s with
  | (inr devices, s') => (ResponseBuilder.success response_now devices, s')
  | (inl error, s') => (ResponseBuilder.fromError response_now error, s')
  end.

End WithDependencies.
End DeviceController.

(** ** What the specification asks of an update and of an envelope *)

(** The entity the specification describes as the result of
    [update(e.id, p)]: [e] with exactly the fields of [p] overwritten, every
    other field as it was, and the identifier pinned. *)
Definition merged_as_specified (e : Device) (p : PartialDevice) : Device :=
  mkDevice (id e)
           (overwrite (name e) (upd_name p))
           (overwrite (type e) (upd_type p))
           (overwrite (status e) (upd_status p))
           (overwrite (lastUpdate e) (upd_lastUpdate p))
           (overwrite (metadata e) (upd_metadata p)).

(** Exactly one of [data] and [error] is present, as [success] says. *)
Definition envelope_consistent {T} (r : ApiResponse T) : Prop :=
  (success r = false -> error r <> None /\ data r = None) /\
  (success r = true -> data r <> None /\ error r = None).

(** A sequence of [create] calls on one repository instance, each with its
    own readings of the clock and of the random generator; the created
    entities are returned in call order. *)
Fixpoint create_calls (calls : list (Date * string * DeviceData))
    (devices : InMemoryDeviceRepository.Store)
    : list Device * InMemoryDeviceRepository.Store :=
  match calls with
  | [] => ([], devices)
  | (now, random36, deviceData) :: rest =>
      let (device, devices') :=
        InMemoryDeviceRepository.create now random36 deviceData devices in
      let (created, final) := create_calls rest devices' in
      (device :: created, final)
  end.

(** What a [create] call draws from its environment, as far as
    [generateId] looks at it. *)
Definition draw (call : Date * string * DeviceData) : Date * string :=
  let '(now, random36, _) := call in (now, substring 2 9 random36).

(** Whether the character [c] occurs in [s]. *)
Fixpoint occurs (c : ascii) (s : string) : bool :=
  match s with
  | EmptyString => false
  | String c' rest => Ascii.eqb c' c || occurs c rest
  end.

(** An implementation of the interface under which the entity disappears
    between the existence check and the update, as a concurrent [delete]
    would make it: [findById] answers from the store and leaves the store
    without the entity.  The other methods are the in-memory ones. *)
Definition racing_repository : IRepository InMemoryDeviceRepository.Store :=
  mkRepository InMemoryDeviceRepository.Store
    (fun key devices =>
       (JsMap.get key devices, snd (JsMap.delete key devices)))
    InMemoryDeviceRepository.findAll
    InMemoryDeviceRepository.create
    InMemoryDeviceRepository.update
    InMemoryDeviceRepository.delete.

(** Two [create] calls in the same millisecond, as the test suite issues
    them, with different random draws. *)
Definition two_calls : list (Date * string * DeviceData) :=
  [ (1700000000000%Z, "0.4fzyo82mvyr",
     mkDeviceData "Device 1" AXIAL_FAN ONLINE 1700000000000
                  (mkMetadata None None None None));
    (1700000000000%Z, "0.9x1k3p7qzha",
     mkDeviceData "Device 2" FIRE_PANEL OFFLINE 1700000000000
                  (mkMetadata None None None None)) ].

(** The same two calls when the random generator yields the same value
    twice. *)
Definition two_colliding_calls : list (Date * string * DeviceData) :=
  [ (1700000000000%Z, "0.4fzyo82mvyr",
     mkDeviceData "Device 1" AXIAL_FAN ONLINE 1700000000000
                  (mkMetadata None None None None));
    (1700000000000%Z, "0.4fzyo82mvyr",
     mkDeviceData "Device 2" FIRE_PANEL OFFLINE 1700000000000
                  (mkMetadata None None None None)) ].

(** ** The shape of a store the repository produces

    Every entry sits under the identifier of its device, and no key occurs
    twice. *)
Definition well_keyed (devices : InMemoryDeviceRepository.Store) : Prop :=
  NoDup (JsMap.keys devices) /\
  Forall (fun entry => id (snd entry) = fst entry) devices.

(** The string a status value is at run time. *)
Definition DeviceStatus_name (s : DeviceStatus) : string :=
  match s with
  | ONLINE => "ONLINE"
  | OFFLINE => "OFFLINE"
  | MAINTENANCE => "MAINTENANCE"
  | ERROR => "ERROR"
  end.

(** ** Configuration: [ConfigService]

    [process.env] maps a variable name to its string when it is set. *)
Definition ProcessEnv := list (string * string).

(** [process.env.NAME || fallback]: an unset variable and an empty one
    both give the fallback. *)
Definition env_or (env : ProcessEnv) (variable fallback : string) : string :=
  match JsMap.get variable env with
  | Some value => js_or value fallback
  | None => fallback
  end.

(** The white space [parseInt] skips, among the code units below 256. *)
Definition is_white_space (c : ascii) : bool :=
  match nat_of_ascii c with
  | 9 | 10 | 11 | 12 | 13 | 32 | 160 => true
  | _ => false
  end%nat.

Fixpoint trim_start (s : string) : string :=
  match s with
  | EmptyString => EmptyString
  | String c rest => if is_white_space c then trim_start rest else s
  end.

(** The longest prefix of decimal digits, as a decimal numeral. *)
Fixpoint digits_prefix (s : string) : Decimal.uint :=
  match s with
  | EmptyString => Decimal.Nil
  | String c rest =>
      match c with
      | "0"%char => Decimal.D0 (digits_prefix rest)
      | "1"%char => Decimal.D1 (digits_prefix rest)
      | "2"%char => Decimal.D2 (digits_prefix rest)
      | "3"%char => Decimal.D3 (digits_prefix rest)
      | "4"%char => Decimal.D4 (digits_prefix rest)
      | "5"%char => Decimal.D5 (digits_prefix rest)
      | "6"%char => Decimal.D6 (digits_prefix rest)
      | "7"%char => Decimal.D7 (digits_prefix rest)
      | "8"%char => Decimal.D8 (digits_prefix rest)
      | "9"%char => Decimal.D9 (digits_prefix rest)
      | _ => Decimal.Nil
      end
  end.

(** [parseInt(s, 10)]: leading white space is skipped, one sign is read,
    then the longest run of digits; [None] is [NaN].  The result is the
    integer the digits denote, which the Number returned equals up to
    2^53 and rounds beyond; a negative zero is [0]. *)
Definition parseInt10 (s : string) : option Z :=
  let trimmed := trim_start s in
  let '(sign, unsigned) :=
    match trimmed with
    | String "-"%char rest => ((-1)%Z, rest)
    | String "+"%char rest => (1%Z, rest)
    | _ => (1%Z, trimmed)
    end in
  match digits_prefix unsigned with
  | Decimal.Nil => None
  | digits => Some (sign * Z.of_uint digits)%Z
  end.

Module LogLevel.

Inductive t := debug | info | warn | error.

(** The string a level is at run time. *)
Definition name (l : t) : string :=
  match l with
  | debug => "debug"
  | info => "info"
  | warn => "warn"
  | error => "error"
  end.

End LogLevel.

Record DatabaseConfig := mkDatabaseConfig {
  db_host : string;
  db_port : option Z;
  db_database : string;
  db_username : string;
  db_password : string
}.

Record AppConfig := mkAppConfig {
  cfg_port : Z;
  cfg_logLevel : LogLevel.t;
  cfg_database : DatabaseConfig
}.

Module ConfigService.

Definition getPort (env : ProcessEnv) : JsError + Z :=
  match parseInt10 (env_or env "PORT" "3000") with
  | None => inl (Error_ "Invalid PORT configuration")
  | Some port =>
      if (port <? 1)%Z || (port >? 65535)%Z
      then inl (Error_ "Invalid PORT configuration")
      else inr port
  end.

Definition validLevels : list LogLevel.t :=
  [LogLevel.debug; LogLevel.info; LogLevel.warn; LogLevel.error].

(** [validLevels.includes(level)], returning the level found. *)
Definition includes (level : string) : option LogLevel.t :=
  find (fun l => (LogLevel.name l =? level)%string) validLevels.

Definition getLogLevel (env : ProcessEnv) : JsError + LogLevel.t :=
  let level := env_or env "LOG_LEVEL" "info" in
  match includes level with
  | None =>
      inl (Error_ ("Invalid LOG_LEVEL: " ++ level ++ ". Must be one of: " ++
                   String.concat ", " (map LogLevel.name validLevels)))
  | Some l => inr l
  end.

(** The properties of the literal are evaluated in order: [getPort]
    first, then [getLogLevel], then the database settings. *)
Definition load (env : ProcessEnv) : JsError + AppConfig :=
  match getPort env with
  | inl e => inl e
  | inr port =>
      match getLogLevel env with
      | inl e => inl e
      | inr logLevel =>
          inr (mkAppConfig port logLevel
                 (mkDatabaseConfig
                    (env_or env "DB_HOST" "localhost")
                    (parseInt10 (env_or env "DB_PORT" "5432"))
                    (env_or env "DB_NAME" "app_db")
                    (env_or env "DB_USER" "user")
                    (env_or env "DB_PASS" "password")))
      end
  end.

End ConfigService.

(** ** The console logger

    What a method writes is the list of lines it passes to [console.log],
    [console.warn] or [console.error].  [Date.prototype.toISOString],
    [JSON.stringify] and the [stack] the runtime attaches to an error are
    taken as given. *)
Inductive ConsoleStream := console_log | console_warn | console_error.

Module ConsoleLogger.
Section WithBuiltins.

Variable toISOString : Date -> string.
Variable JSON_stringify : list (string * JValue) -> string.
Variable stack : JsError -> string.

(** The table [levels] of [shouldLog]. *)
Definition levels (l : LogLevel.t) : nat :=
  match l with
  | LogLevel.debug => 0
  | LogLevel.info => 1
  | LogLevel.warn => 2
  | LogLevel.error => 3
  end.

(** [levels[level] >= levels[this.level]] *)
Definition shouldLog (this_level level : LogLevel.t) : bool :=
  (levels this_level <=? levels level)%nat.

Definition formatMessage (now : Date) (level message : string)
    (meta : option (list (string * JValue))) : string :=
  let timestamp := toISOString now in
  let metaStr :=
    match meta with
    | Some m => " " ++ JSON_stringify m
    | None => ""
    end in
  "[" ++ timestamp ++ "] " ++ level ++ ": " ++ message ++ metaStr.

Definition info (this_level : LogLevel.t) (now : Date) (message : string)
    (meta : option (list (string * JValue))) : list (ConsoleStream * string) :=
  if shouldLog this_level LogLevel.info
  then [(console_log, formatMessage now "INFO" message meta)]
  else [].

Definition warn (this_level : LogLevel.t) (now : Date) (message : string)
    (meta : option (list (string * JValue))) : list (ConsoleStream * string) :=
  if shouldLog this_level LogLevel.warn
  then [(console_warn, formatMessage now "WARN" message meta)]
  else [].

(** [{ ...meta, error: error.message, stack: error.stack }]: spreading an
    absent [meta] contributes nothing; a key already present keeps its
    place and takes the new value. *)
Definition errorMeta (err : option JsError)
    (meta : option (list (string * JValue))) : option (list (string * JValue)) :=
  match err with
  | Some e =>
      let spreadMeta := match meta with Some m => m | None => [] end in
      Some (JsMap.set "stack" (JStr (stack e))
              (JsMap.set "error" (JStr (err_message e)) spreadMeta))
  | None => meta
  end.

Definition error (this_level : LogLevel.t) (now : Date) (message : string)
    (err : option JsError) (meta : option (list (string * JValue)))
    : list (ConsoleStream * string) :=
  if shouldLog this_level LogLevel.error
  then [(console_error, formatMessage now "ERROR" message (errorMeta err meta))]
  else [].

End WithBuiltins.
End ConsoleLogger.

(** ** The demo run of the application *)

(** The clock readings of the four controller calls of [runDemo]. *)
Record DemoClock := mkDemoClock {
  list_now : Date;
  get_now : Date;
  update_service_now : Date;
  update_repository_now : Date;
  update_now : Date;
  missing_now : Date
}.

Record DemoResponses := mkDemoResponses {
  listResponse : ApiResponse (list Device);
  getResponse : ApiResponse Device;
  updateResponse : ApiResponse Device;
  errorResponse : ApiResponse Device
}.

Module Application.
Section WithMessages.

Variable zod_message : ZodIssue -> string.

(** The four responses [runDemo] logs, and the store it leaves. *)
Definition runDemo (clock : DemoClock)
    (devices : InMemoryDeviceRepository.Store)
    : DemoResponses * InMemoryDeviceRepository.Store :=
  let (listResponse, s1) :=
    DeviceController.listDevices InMemoryDeviceRepository.repository
      (list_now clock) devices in
  let (getResponse, s2) :=
    DeviceController.getDevice InMemoryDeviceRepository.repository
      (get_now clock) (mkGetRequest (JStr "device_001")) s1 in
  let (updateResponse, s3) :=
    DeviceController.updateDevice InMemoryDeviceRepository.repository
      zod_message (update_service_now clock) (update_repository_now clock)
      (update_now clock)
      (mkUpdateRequest (JStr "device_001") (JObj [("status", JStr "MAINTENANCE")]))
      s2 in
  let (errorResponse, s4) :=
    DeviceController.getDevice InMemoryDeviceRepository.repository
      (missing_now clock) (mkGetRequest (JStr "non_existent")) s3 in
  (mkDemoResponses listResponse getResponse updateResponse errorResponse, s4).

End WithMessages.
End Application.

(** ** Facts about the backing map *)

Lemma get_set_same {V} (k : string) (v : V) (m : JsMap.t V) :
  JsMap.get k (JsMap.set k v m) = Some v.
Proof.
  induction m as [| [k' v'] rest IH]; simpl.
  - now rewrite String.eqb_refl.
  - destruct (String.eqb_spec k' k) as [-> | Hneq]; simpl.
    + now rewrite String.eqb_refl.
    + destruct (String.eqb_spec k' k); [contradiction | exact IH].
Qed.

Lemma get_set_other {V} (k k' : string) (v : V) (m : JsMap.t V) :
  k <> k' -> JsMap.get k' (JsMap.set k v m) = JsMap.get k' m.
Proof.
  intros Hneq.
  induction m as [| [k0 v0] rest IH]; simpl.
  - destruct (String.eqb_spec k k'); [contradiction | reflexivity].
  - destruct (String.eqb_spec k0 k) as [-> | Hk0]; simpl.
    + destruct (String.eqb_spec k k'); [contradiction | reflexivity].
    + destruct (String.eqb_spec k0 k'); [reflexivity | exact IH].
Qed.

Lemma get_delete_same {V} (k : string) (m : JsMap.t V) :
  JsMap.get k (snd (JsMap.delete k m)) = None.
Proof.
  unfold JsMap.delete; simpl.
  induction m as [| [k' v'] rest IH]; simpl; [reflexivity |].
  destruct (String.eqb_spec k' k) as [-> | Hneq]; simpl; [exact IH |].
  destruct (String.eqb_spec k' k); [contradiction | exact IH].
Qed.

Lemma delete_absent {V} (k : string) (m : JsMap.t V) :
  JsMap.get k m = None -> JsMap.delete k m = (false, m).
Proof.
  intros Hget. unfold JsMap.delete, JsMap.has. rewrite Hget. f_equal.
  induction m as [| [k' v'] rest IH]; simpl in *; [reflexivity |].
  destruct (String.eqb_spec k' k); [discriminate | simpl].
  now rewrite IH.
Qed.

Lemma delete_present {V} (k : string) (v : V) (m : JsMap.t V) :
  JsMap.get k m = Some v -> fst (JsMap.delete k m) = true.
Proof.
  intros Hget. unfold JsMap.delete, JsMap.has. simpl. now rewrite Hget.
Qed.

(** ** Facts about identifiers *)

Lemma isValidId_spec (ident : JValue) :
  ValidationService.isValidId ident = true <->
  exists s, ident = JStr s /\ (0 < String.length s <= 36)%nat.
Proof.
  split.
  - destruct ident; simpl; try discriminate.
    intros H. apply andb_true_iff in H as [H1 H2].
    apply Nat.ltb_lt in H1. apply Nat.leb_le in H2.
    eexists; split; [reflexivity | lia].
  - intros [s [-> [H1 H2]]]. simpl.
    apply andb_true_iff. split; [now apply Nat.ltb_lt | now apply Nat.leb_le].
Qed.

Lemma validateId_ok {S} (s : string) (st : S) :
  ValidationService.isValidId (JStr s) = true ->
  DeviceService.validateId (JStr s) st = (inr s, st).
Proof.
  intros H. unfold DeviceService.validateId. now rewrite H.
Qed.

Lemma validateId_fails {S} (ident : JValue) (st : S) :
  ValidationService.isValidId ident = false ->
  DeviceService.validateId ident st =
    (inl (ValidationError "Invalid device ID format" (Some "id")), st).
Proof.
  intros H. unfold DeviceService.validateId. now rewrite H.
Qed.

(** ** Running the service *)

Ltac run_action :=
  unfold DeviceService.getDevice, DeviceService.updateDevice,
    DeviceService.listDevices, bind, await, lift, ret, throw.

Lemma getDevice_invalid {S} (repository : IRepository S) (ident : JValue) (st : S) :
  ValidationService.isValidId ident = false ->
  DeviceService.getDevice repository ident st =
    (inl (ValidationError "Invalid device ID format" (Some "id")), st).
Proof.
  intros H. run_action. now rewrite (validateId_fails ident st H).
Qed.

Lemma getDevice_valid {S} (repository : IRepository S) (s : string) (st : S) :
  ValidationService.isValidId (JStr s) = true ->
  DeviceService.getDevice repository (JStr s) st =
    match repo_findById repository s st with
    | (Some d, st') => (inr d, st')
    | (None, st') => (inl (NotFoundError "Device" s), st')
    end.
Proof.
  intros H. run_action. rewrite (validateId_ok s st H).
  destruct (repo_findById repository s st) as [[d |] st']; reflexivity.
Qed.

Lemma updateDevice_invalid_id {S} (repository : IRepository S)
    (zod_message : ZodIssue -> string) (t1 t2 : Date) (ident body : JValue) (st : S) :
  ValidationService.isValidId ident = false ->
  DeviceService.updateDevice repository zod_message t1 t2 ident body st =
    (inl (ValidationError "Invalid device ID format" (Some "id")), st).
Proof.
  intros H. run_action. now rewrite (validateId_fails ident st H).
Qed.

Lemma updateDevice_invalid_body {S} (repository : IRepository S)
    (zod_message : ZodIssue -> string) (t1 t2 : Date) (s : string)
    (body : JValue) (e : JsError) (st : S) :
  ValidationService.isValidId (JStr s) = true ->
  ValidationService.validateDeviceUpdate zod_message body = inl e ->
  DeviceService.updateDevice repository zod_message t1 t2 (JStr s) body st =
    (inl e, st).
Proof.
  intros H Hbody. run_action. rewrite (validateId_ok s st H). now rewrite Hbody.
Qed.

Lemma updateDevice_valid {S} (repository : IRepository S)
    (zod_message : ZodIssue -> string) (t1 t2 : Date) (s : string)
    (body : JValue) (v : DeviceUpdateRequest) (st : S) :
  ValidationService.isValidId (JStr s) = true ->
  ValidationService.validateDeviceUpdate zod_message body = inr v ->
  DeviceService.updateDevice repository zod_message t1 t2 (JStr s) body st =
    match repo_findById repository s st with
    | (None, st1) => (inl (NotFoundError "Device" s), st1)
    | (Some _, st1) =>
        match repo_update repository t2 s
                (mkPartial None (req_name v) None (req_status v) (Some t1)
                           (req_metadata v)) st1 with
        | (None, st2) => (inl (Error_ "Failed to update device"), st2)
        | (Some d, st2) => (inr d, st2)
        end
    end.
Proof.
  intros H Hbody. run_action. rewrite (validateId_ok s st H). rewrite Hbody.
  destruct (repo_findById repository s st) as [[d |] st1]; [| reflexivity].
  destruct (repo_update repository t2 s _ st1) as [[d' |] st2]; reflexivity.
Qed.

Lemma validation_error_name (zod_message : ZodIssue -> string) (body : JValue)
    (e : JsError) :
  ValidationService.validateDeviceUpdate zod_message body = inl e ->
  err_name e = "ValidationError" /\ err_code e = Some "VALIDATION_ERROR".
Proof.
  unfold ValidationService.validateDeviceUpdate.
  destruct (deviceUpdateSchema body); intros [= <-]; split; reflexivity.
Qed.

(** ** The claims *)

(** C10: a freshly constructed in-memory repository holds exactly the two
    sample devices, with identifiers device_001 and device_002, in that
    order: [findAll] returns them and [findById('device_001')] finds the
    first one, without any prior [create]. *)
Theorem seeded_on_construction (t1 t2 : Date) :
  let devices := InMemoryDeviceRepository.new t1 t2 in
  fst (InMemoryDeviceRepository.findAll devices) =
    InMemoryDeviceRepository.sampleDevices t1 t2 /\
  map id (fst (InMemoryDeviceRepository.findAll devices)) =
    ["device_001"; "device_002"] /\
  List.length (fst (InMemoryDeviceRepository.findAll devices)) = 2%nat /\
  fst (InMemoryDeviceRepository.findById "device_001" devices) =
    Some (mkDevice "device_001" "Axial Fan A1" AXIAL_FAN ONLINE t1
            (mkMetadata (Some "Building A") (Some "TechCorp") (Some "AF-100")
                        (Some "1.2.3"))) /\
  (exists d, fst (InMemoryDeviceRepository.findById "device_002" devices) = Some d) /\
  (forall key, key <> "device_001" -> key <> "device_002" ->
     fst (InMemoryDeviceRepository.findById key devices) = None).
Proof.
  cbv zeta. repeat split; try reflexivity.
  - eexists. reflexivity.
  - intros key H1 H2.
    unfold InMemoryDeviceRepository.findById, InMemoryDeviceRepository.new,
      InMemoryDeviceRepository.seedData, InMemoryDeviceRepository.sampleDevices.
    cbn [fst fold_left id].
    rewrite !get_set_other by congruence. reflexivity.
Qed.

(** C6: [ResponseBuilder.fromError] returns the failure envelope whose error
    is exactly [{code: err.name, message: err.message}], without details;
    two errors with the same name and message give the same envelope, so
    neither [statusCode], nor the [code] property, nor [field] survives. *)
Theorem fromError_keeps_name_and_message (T : Type) (now : Date) (err : JsError) :
  @ResponseBuilder.fromError T now err =
    mkResponse false None
      (Some (mkApiError (err_name err) (err_message err) None)) now /\
  (forall err' : JsError,
     err_name err' = err_name err -> err_message err' = err_message err ->
     @ResponseBuilder.fromError T now err' = @ResponseBuilder.fromError T now err).
Proof.
  split; [reflexivity |].
  intros err' Hn Hm. unfold ResponseBuilder.fromError. now rewrite Hn, Hm.
Qed.

(** C7: [isValidId] holds exactly of the non-empty strings of length at most
    36, and for every other identifier [getDevice] fails with the
    ValidationError of the guard whatever the repository is and whatever it
    holds, leaving the repository state untouched. *)
Theorem getDevice_validates_id_first (ident : JValue) :
  (ValidationService.isValidId ident = true <->
   exists s, ident = JStr s /\ (0 < String.length s <= 36)%nat) /\
  ((~ exists s, ident = JStr s /\ (0 < String.length s <= 36)%nat) ->
   forall (S : Type) (repository : IRepository S) (st : S),
     DeviceService.getDevice repository ident st =
       (inl (ValidationError "Invalid device ID format" (Some "id")), st) /\
     err_name (ValidationError "Invalid device ID format" (Some "id")) =
       "ValidationError").
Proof.
  split; [apply isValidId_spec |].
  intros Hbad S repository st. split; [| reflexivity].
  apply getDevice_invalid.
  destruct (ValidationService.isValidId ident) eqn:E; [| reflexivity].
  exfalso. apply Hbad. now apply isValidId_spec.
Qed.

Lemma getDevice_validates_id_first_witness :
  DeviceService.getDevice InMemoryDeviceRepository.repository (JStr "")
    [("", mkDevice "" "Unnamed" PUMP OFFLINE 0 (mkMetadata None None None None))] =
  (inl (ValidationError "Invalid device ID format" (Some "id")),
   [("", mkDevice "" "Unnamed" PUMP OFFLINE 0 (mkMetadata None None None None))]).
Proof.
  refine (proj1 (proj2 (getDevice_validates_id_first (JStr "")) _ _
                   InMemoryDeviceRepository.repository _)).
  intros [s [Heq [Hlen _]]]. injection Heq as <-. simpl in Hlen. lia.
Defined.

(** C2: each controller method returns an envelope for every input,
    whatever the repository does, and in that envelope [success = false]
    comes with an error and no data, [success = true] with data and no
    error. *)
Theorem controller_envelopes_total (S : Type) (repository : IRepository S)
    (zod_message : ZodIssue -> string) (t1 t2 t3 : Date)
    (get_request : GetDeviceRequest) (update_request : UpdateDeviceRequest)
    (st : S) :
  envelope_consistent
    (fst (DeviceController.getDevice repository t3 get_request st)) /\
  envelope_consistent
    (fst (DeviceController.updateDevice repository zod_message t1 t2 t3
            update_request st)) /\
  envelope_consistent
    (fst (DeviceController.listDevices repository t3 st)).
Proof.
  unfold envelope_consistent, DeviceController.getDevice,
    DeviceController.updateDevice, DeviceController.listDevices.
  repeat split;
    match goal with
    | |- context [match ?m with _ => _ end] =>
        destruct m as [[e | v] st']; simpl in *; intros; congruence
    end.
Qed.

(** C8: when the repository reports absence at apply time although the
    existence check just found the entity, [updateDevice] throws the plain
    [Error] 'Failed to update device': the call fails, the error is not a
    NotFoundError, and the controller turns it into a failure envelope with
    code 'Error'. *)
Theorem update_absence_is_internal_fault (S : Type) (repository : IRepository S)
    (zod_message : ZodIssue -> string) (t1 t2 t3 : Date) (s : string)
    (body : JValue) (v : DeviceUpdateRequest) (d : Device) (st st1 st2 : S) :
  ValidationService.isValidId (JStr s) = true ->
  ValidationService.validateDeviceUpdate zod_message body = inr v ->
  repo_findById repository s st = (Some d, st1) ->
  repo_update repository t2 s
    (mkPartial None (req_name v) None (req_status v) (Some t1) (req_metadata v))
    st1 = (None, st2) ->
  DeviceService.updateDevice repository zod_message t1 t2 (JStr s) body st =
    (inl (Error_ "Failed to update device"), st2) /\
  err_name (Error_ "Failed to update device") = "Error" /\
  err_name (Error_ "Failed to update device") <> "NotFoundError" /\
  DeviceController.updateDevice repository zod_message t1 t2 t3
    (mkUpdateRequest (JStr s) body) st =
    (mkResponse false None
       (Some (mkApiError "Error" "Failed to update device" None)) t3, st2).
Proof.
  intros Hid Hbody Hfind Hupdate.
  assert (Hsvc : DeviceService.updateDevice repository zod_message t1 t2
                   (JStr s) body st =
                 (inl (Error_ "Failed to update device"), st2)).
  { rewrite (updateDevice_valid repository zod_message t1 t2 s body v st Hid Hbody).
    now rewrite Hfind, Hupdate. }
  repeat split; [exact Hsvc | discriminate |].
  unfold DeviceController.updateDevice. cbn [update_id update_body].
  now rewrite Hsvc.
Qed.

Lemma update_absence_is_internal_fault_witness :
  DeviceService.updateDevice racing_repository (fun _ => "invalid") 7 8
    (JStr "device_001") (JObj [("status", JStr "MAINTENANCE")])
    (InMemoryDeviceRepository.new 0 0) =
    (inl (Error_ "Failed to update device"),
     snd (JsMap.delete "device_001" (InMemoryDeviceRepository.new 0 0))).
Proof.
  refine (proj1 (update_absence_is_internal_fault _ racing_repository
                   (fun _ => "invalid") 7 8 9 "device_001"
                   (JObj [("status", JStr "MAINTENANCE")])
                   (mkRequest None (Some MAINTENANCE) None)
                   (mkDevice "device_001" "Axial Fan A1" AXIAL_FAN ONLINE 0
                      (mkMetadata (Some "Building A") (Some "TechCorp")
                                  (Some "AF-100") (Some "1.2.3")))
                   (InMemoryDeviceRepository.new 0 0) _ _ _ _ _ _));
    reflexivity.
Defined.

(** C3: for a well-formed identifier under which the in-memory store holds
    nothing, and a valid update body, [getDevice] and [updateDevice] fail
    with the NotFoundError for that identifier, [delete] returns false, and
    the store is left as it was; an identifier that has been deleted is
    such an identifier. *)
Theorem not_found_symmetry (zod_message : ZodIssue -> string) (t1 t2 : Date)
    (s : string) (body : JValue) (v : DeviceUpdateRequest)
    (devices : InMemoryDeviceRepository.Store) :
  ValidationService.isValidId (JStr s) = true ->
  ValidationService.validateDeviceUpdate zod_message body = inr v ->
  JsMap.get s devices = None ->
  DeviceService.getDevice InMemoryDeviceRepository.repository (JStr s) devices =
    (inl (NotFoundError "Device" s), devices) /\
  DeviceService.updateDevice InMemoryDeviceRepository.repository zod_message
    t1 t2 (JStr s) body devices =
    (inl (NotFoundError "Device" s), devices) /\
  InMemoryDeviceRepository.delete s devices = (false, devices) /\
  err_name (NotFoundError "Device" s) = "NotFoundError" /\
  (forall earlier : InMemoryDeviceRepository.Store,
     JsMap.get s (snd (InMemoryDeviceRepository.delete s earlier)) = None).
Proof.
  intros Hid Hbody Habsent. repeat split.
  - rewrite (getDevice_valid _ s devices Hid). cbn [repo_findById InMemoryDeviceRepository.repository].
    unfold InMemoryDeviceRepository.findById. now rewrite Habsent.
  - rewrite (updateDevice_valid _ zod_message t1 t2 s body v devices Hid Hbody).
    cbn [repo_findById InMemoryDeviceRepository.repository].
    unfold InMemoryDeviceRepository.findById. now rewrite Habsent.
  - now apply delete_absent.
  - intros earlier. apply get_delete_same.
Qed.

Lemma not_found_symmetry_witness :
  DeviceService.getDevice InMemoryDeviceRepository.repository
    (JStr "non_existent") (InMemoryDeviceRepository.new 0 0) =
    (inl (NotFoundError "Device" "non_existent"),
     InMemoryDeviceRepository.new 0 0).
Proof.
  refine (proj1 (not_found_symmetry (fun _ => "invalid") 7 8 "non_existent"
                   (JObj [("status", JStr "MAINTENANCE")])
                   (mkRequest None (Some MAINTENANCE) None)
                   (InMemoryDeviceRepository.new 0 0) _ _ _));
    reflexivity.
Defined.

(** ** Validation of the status field *)

Lemma z_enum_status_rejects (path : list string) (v : JValue) :
  ~ In v [JStr "ONLINE"; JStr "OFFLINE"; JStr "MAINTENANCE"; JStr "ERROR"] ->
  exists issue, z_enum_status path v = inl issue.
Proof.
  intros Hout. destruct v; try (eexists; reflexivity).
  unfold z_enum_status.
  repeat match goal with
         | |- context [String.eqb ?a ?b] =>
             destruct (String.eqb_spec a b) as [-> | ?];
             [exfalso; apply Hout; simpl; tauto |]
         end.
  eexists; reflexivity.
Qed.

Lemma schema_rejects_bad_status (fields : list (string * JValue)) (v : JValue) :
  prop_get "status" fields = Some v ->
  ~ In v [JStr "ONLINE"; JStr "OFFLINE"; JStr "MAINTENANCE"; JStr "ERROR"] ->
  exists issue, deviceUpdateSchema (JObj fields) = inl issue.
Proof.
  intros Hget Hout. unfold deviceUpdateSchema, zbind.
  destruct (z_optional_key (z_string_min_max 1 100) [] "name" fields) as [i | n];
    [eexists; reflexivity |].
  unfold z_optional_key at 1. rewrite Hget.
  destruct (z_enum_status_rejects ([] ++ ["status"]) v Hout) as [issue ->].
  eexists; reflexivity.
Qed.

(** C4: for a well-formed identifier and a body whose status is not one of
    the four enum values, [updateDevice] fails with a ValidationError and
    returns the repository state it was given, whatever the repository is:
    no repository method has run, and a following [getDevice] answers as it
    would have before. *)
Theorem invalid_status_rejected_before_mutation (S : Type)
    (repository : IRepository S) (zod_message : ZodIssue -> string)
    (t1 t2 : Date) (s : string) (fields : list (string * JValue))
    (v : JValue) (st : S) :
  ValidationService.isValidId (JStr s) = true ->
  prop_get "status" fields = Some v ->
  ~ In v [JStr "ONLINE"; JStr "OFFLINE"; JStr "MAINTENANCE"; JStr "ERROR"] ->
  exists e : JsError,
    DeviceService.updateDevice repository zod_message t1 t2 (JStr s)
      (JObj fields) st = (inl e, st) /\
    err_name e = "ValidationError" /\
    DeviceService.getDevice repository (JStr s)
      (snd (DeviceService.updateDevice repository zod_message t1 t2 (JStr s)
              (JObj fields) st)) =
    DeviceService.getDevice repository (JStr s) st.
Proof.
  intros Hid Hget Hout.
  destruct (schema_rejects_bad_status fields v Hget Hout) as [issue Hissue].
  destruct (ValidationService.validateDeviceUpdate zod_message (JObj fields))
    as [e | r] eqn:Hv.
  - exists e.
    rewrite (updateDevice_invalid_body repository zod_message t1 t2 s
               (JObj fields) e st Hid Hv).
    repeat split. exact (proj1 (validation_error_name _ _ _ Hv)).
  - unfold ValidationService.validateDeviceUpdate in Hv.
    rewrite Hissue in Hv. discriminate.
Qed.

Lemma invalid_status_rejected_before_mutation_witness :
  exists e : JsError,
    DeviceService.updateDevice InMemoryDeviceRepository.repository
      (fun _ => "invalid") 7 8 (JStr "device_001")
      (JObj [("status", JStr "NOT_A_REAL_STATUS")])
      (InMemoryDeviceRepository.new 0 0) =
      (inl e, InMemoryDeviceRepository.new 0 0) /\
    err_name e = "ValidationError".
Proof.
  destruct (invalid_status_rejected_before_mutation _
              InMemoryDeviceRepository.repository (fun _ => "invalid") 7 8
              "device_001" [("status", JStr "NOT_A_REAL_STATUS")]
              (JStr "NOT_A_REAL_STATUS") (InMemoryDeviceRepository.new 0 0))
    as [e [H1 [H2 _]]].
  - reflexivity.
  - reflexivity.
  - simpl. intros [H | [H | [H | [H | []]]]]; discriminate H.
  - exists e. split; assumption.
Defined.



(** C1, as the code has it: for a device [e] stored under its identifier,
    [update(e.id, p)] returns [e] with the name, type, status and metadata
    that [p] provides overwritten and those it omits kept, the identifier
    kept even when [p] carries one, and [lastUpdate] set to the clock
    reading of the call; the record stored under [e.id] is the returned
    one. *)
Theorem update_merges_and_restamps (now : Date) (e : Device) (p : PartialDevice)
    (devices : InMemoryDeviceRepository.Store) :
  JsMap.get (id e) devices = Some e ->
  let updated :=
    mkDevice (id e)
             (overwrite (name e) (upd_name p))
             (overwrite (type e) (upd_type p))
             (overwrite (status e) (upd_status p))
             now
             (overwrite (metadata e) (upd_metadata p)) in
  fst (InMemoryDeviceRepository.update now (id e) p devices) = Some updated /\
  JsMap.get (id e) (snd (InMemoryDeviceRepository.update now (id e) p devices)) =
    Some updated /\
  id updated = id e.
Proof.
  intros Hstored updated. unfold InMemoryDeviceRepository.update.
  rewrite Hstored. cbn [fst snd]. repeat split.
  apply get_set_same.
Qed.

Lemma update_merges_and_restamps_witness :
  fst (InMemoryDeviceRepository.update 5 "device_001"
         (mkPartial (Some "device_999") None None (Some MAINTENANCE) (Some 3%Z) None)
         (InMemoryDeviceRepository.new 0 0)) =
  Some (mkDevice "device_001" "Axial Fan A1" AXIAL_FAN MAINTENANCE 5
          (mkMetadata (Some "Building A") (Some "TechCorp") (Some "AF-100")
                      (Some "1.2.3"))).
Proof.
  refine (proj1 (update_merges_and_restamps 5
                   (mkDevice "device_001" "Axial Fan A1" AXIAL_FAN ONLINE 0
                      (mkMetadata (Some "Building A") (Some "TechCorp")
                                  (Some "AF-100") (Some "1.2.3")))
                   (mkPartial (Some "device_999") None None (Some MAINTENANCE)
                              (Some 3%Z) None)
                   (InMemoryDeviceRepository.new 0 0) _)).
  reflexivity.
Defined.

(** C1 as stated fails: an update that only sets the status also changes
    [lastUpdate], a field the partial update does not touch. *)
Lemma update_changes_untouched_lastUpdate :
  JsMap.get "device_001" (InMemoryDeviceRepository.new 0 0) =
    Some (mkDevice "device_001" "Axial Fan A1" AXIAL_FAN ONLINE 0
            (mkMetadata (Some "Building A") (Some "TechCorp") (Some "AF-100")
                        (Some "1.2.3"))) /\
  fst (InMemoryDeviceRepository.update 5 "device_001"
         (mkPartial None None None (Some MAINTENANCE) None None)
         (InMemoryDeviceRepository.new 0 0)) <>
  Some (merged_as_specified
          (mkDevice "device_001" "Axial Fan A1" AXIAL_FAN ONLINE 0
             (mkMetadata (Some "Building A") (Some "TechCorp") (Some "AF-100")
                         (Some "1.2.3")))
          (mkPartial None None None (Some MAINTENANCE) None None)).
Proof.
  split; [reflexivity |].
  vm_compute. intros H. discriminate H.
Qed.

(** ** Generated identifiers *)

Lemma digits_without_underscore (d : Decimal.uint) :
  occurs "_" (NilEmpty.string_of_uint d) = false.
Proof.
  induction d; simpl; auto.
Qed.

Lemma string_of_Z_without_underscore (n : Z) :
  occurs "_" (string_of_Z n) = false.
Proof.
  assert (Hu : forall d, occurs "_" (NilZero.string_of_uint d) = false).
  { intros d. destruct d; try reflexivity;
      apply (digits_without_underscore (_ d)). }
  unfold string_of_Z. destruct (Z.to_int n) as [d | d]; simpl.
  - apply Hu.
  - apply Hu.
Qed.

Lemma string_of_Z_inj (n n' : Z) :
  string_of_Z n = string_of_Z n' -> n = n'.
Proof.
  unfold string_of_Z. intros H.
  assert (Hnn : forall z, Z.to_int z <> Decimal.Pos Decimal.Nil /\
                          Z.to_int z <> Decimal.Neg Decimal.Nil).
  { intros z. destruct z; simpl; split; try discriminate;
      intros [= E]; exact (DecimalPos.Unsigned.to_uint_nonnil _ E). }
  apply DecimalZ.to_int_inj.
  assert (E : Some (Z.to_int n) = Some (Z.to_int n')).
  { rewrite <- (NilZero.isi (Z.to_int n)) by apply Hnn.
    rewrite <- (NilZero.isi (Z.to_int n')) by apply Hnn.
    now rewrite H. }
  now injection E.
Qed.

(** A separator that occurs in neither prefix splits a string in one way
    only. *)
Lemma split_at_separator (a a' x x' : string) :
  occurs "_" a = false -> occurs "_" a' = false ->
  a ++ String "_" x = a' ++ String "_" x' -> a = a' /\ x = x'.
Proof.
  revert a'. induction a as [| c a IH]; intros [| c' a'] Ha Ha' H; simpl in *.
  - now injection H.
  - injection H as Hc _. subst c'. discriminate Ha'.
  - injection H as Hc _. subst c. discriminate Ha.
  - injection H as Hc Hrest. subst c'.
    apply orb_false_iff in Ha as [_ Ha]. apply orb_false_iff in Ha' as [_ Ha'].
    destruct (IH a' Ha Ha' Hrest) as [-> ->]. now split.
Qed.

Lemma generateId_inj (now now' : Date) (random36 random36' : string) :
  InMemoryDeviceRepository.generateId now random36 =
  InMemoryDeviceRepository.generateId now' random36' ->
  now = now' /\ substring 2 9 random36 = substring 2 9 random36'.
Proof.
  unfold InMemoryDeviceRepository.generateId. intros H.
  cbn [append] in H. injection H as H.
  apply split_at_separator in H; try apply string_of_Z_without_underscore.
  destruct H as [Hn Hr]. split; [now apply string_of_Z_inj | exact Hr].
Qed.

Lemma generateId_nonempty (now : Date) (random36 : string) :
  (0 < String.length (InMemoryDeviceRepository.generateId now random36))%nat.
Proof.
  unfold InMemoryDeviceRepository.generateId. cbn [append String.length]. lia.
Qed.

(** A seeded identifier has a single underscore, a generated one has two. *)
Lemma generateId_not_seeded (now : Date) (random36 : string) (c : ascii) :
  occurs "_" (String "0" (String "0" (String c EmptyString))) = false ->
  InMemoryDeviceRepository.generateId now random36 <>
  "device_" ++ String "0" (String "0" (String c EmptyString)).
Proof.
  unfold InMemoryDeviceRepository.generateId. intros Hc H.
  cbn [append] in H. injection H as H.
  assert (Hocc : occurs "_" (string_of_Z now ++ String "_" (substring 2 9 random36)) = true).
  { clear. induction (string_of_Z now) as [| c' r IH]; simpl.
    - reflexivity.
    - rewrite IH. apply orb_true_r. }
  rewrite H in Hocc. rewrite Hc in Hocc. discriminate.
Qed.

Lemma create_calls_ids (calls : list (Date * string * DeviceData))
    (devices : InMemoryDeviceRepository.Store) :
  map id (fst (create_calls calls devices)) =
  map (fun call => InMemoryDeviceRepository.generateId (fst (draw call))
                     (snd (fst call))) calls.
Proof.
  revert devices. induction calls as [| [[now random36] deviceData] rest IH];
    intros devices; [reflexivity |].
  cbn [create_calls]. unfold InMemoryDeviceRepository.create.
  specialize (IH (JsMap.set (InMemoryDeviceRepository.generateId now random36)
                    (mkDevice (InMemoryDeviceRepository.generateId now random36)
                       (data_name deviceData) (data_type deviceData)
                       (data_status deviceData) (data_lastUpdate deviceData)
                       (data_metadata deviceData)) devices)).
  destruct (create_calls rest _) as [created final].
  cbn [fst map id draw snd] in *. now rewrite IH.
Qed.

Lemma distinct_draws_distinct_ids (calls : list (Date * string * DeviceData)) :
  NoDup (map draw calls) ->
  NoDup (map (fun call => InMemoryDeviceRepository.generateId (fst (draw call))
                            (snd (fst call))) calls).
Proof.
  induction calls as [| call rest IH]; intros Hnd; cbn [map] in *.
  - constructor.
  - apply NoDup_cons_iff in Hnd as [Hnotin Hnd].
    constructor; [| now apply IH].
    intros Hin. apply Hnotin.
    apply in_map_iff in Hin as [call' [Heq Hin]].
    apply in_map_iff. exists call'. split; [| exact Hin].
    destruct call as [[now random36] deviceData].
    destruct call' as [[now' random36'] deviceData'].
    cbn [draw fst snd] in *.
    apply generateId_inj in Heq as [-> ->]. reflexivity.
Qed.

Lemma create_calls_cons (now : Date) (random36 : string) (deviceData : DeviceData)
    (rest : list (Date * string * DeviceData))
    (devices : InMemoryDeviceRepository.Store) :
  create_calls ((now, random36, deviceData) :: rest) devices =
  (fst (InMemoryDeviceRepository.create now random36 deviceData devices)
     :: fst (create_calls rest
               (snd (InMemoryDeviceRepository.create now random36 deviceData devices))),
   snd (create_calls rest
          (snd (InMemoryDeviceRepository.create now random36 deviceData devices)))).
Proof.
  cbn [create_calls]. unfold InMemoryDeviceRepository.create. cbn [fst snd].
  destruct (create_calls rest _); reflexivity.
Qed.

Lemma get_after_create_calls (calls : list (Date * string * DeviceData))
    (devices : InMemoryDeviceRepository.Store) (k : string) :
  ~ In k (map id (fst (create_calls calls devices))) ->
  JsMap.get k (snd (create_calls calls devices)) = JsMap.get k devices.
Proof.
  revert devices. induction calls as [| [[now random36] deviceData] rest IH];
    intros devices Hnotin; [reflexivity |].
  rewrite create_calls_cons in *. cbn [fst snd map] in *.
  rewrite IH by (intros Hin; apply Hnotin; now right).
  unfold InMemoryDeviceRepository.create in *. cbn [fst snd id] in *.
  apply get_set_other. intros Heq. apply Hnotin. now left.
Qed.

Lemma created_are_stored (calls : list (Date * string * DeviceData))
    (devices : InMemoryDeviceRepository.Store) :
  NoDup (map id (fst (create_calls calls devices))) ->
  forall d, In d (fst (create_calls calls devices)) ->
    JsMap.get (id d) (snd (create_calls calls devices)) = Some d.
Proof.
  revert devices. induction calls as [| [[now random36] deviceData] rest IH];
    intros devices Hnd d Hin; [destruct Hin |].
  rewrite create_calls_cons in *. cbn [fst snd map] in *.
  apply NoDup_cons_iff in Hnd as [Hfresh Hnd].
  destruct Hin as [<- | Hin].
  - rewrite get_after_create_calls by exact Hfresh.
    unfold InMemoryDeviceRepository.create. cbn [fst snd id].
    apply get_set_same.
  - now apply IH.
Qed.

Lemma created_id_at (calls : list (Date * string * DeviceData))
    (devices : InMemoryDeviceRepository.Store) (i : nat)
    (call : Date * string * DeviceData) (d : Device) :
  nth_error calls i = Some call ->
  nth_error (fst (create_calls calls devices)) i = Some d ->
  id d = InMemoryDeviceRepository.generateId (fst (draw call)) (snd (fst call)).
Proof.
  intros Hcall Hd.
  pose proof (create_calls_ids calls devices) as Hids.
  apply (f_equal (fun l => nth_error l i)) in Hids.
  rewrite !nth_error_map, Hcall, Hd in Hids. cbn [option_map] in Hids.
  now injection Hids.
Qed.

Lemma same_draw_same_id (call call' : Date * string * DeviceData) :
  draw call = draw call' ->
  InMemoryDeviceRepository.generateId (fst (draw call)) (snd (fst call)) =
  InMemoryDeviceRepository.generateId (fst (draw call')) (snd (fst call')).
Proof.
  destruct call as [[now random36] deviceData].
  destruct call' as [[now' random36'] deviceData'].
  cbn [draw fst snd]. intros [= -> Hsuffix].
  unfold InMemoryDeviceRepository.generateId. now rewrite Hsuffix.
Qed.

(** C5, as the code has it: in every sequence of [create] calls on a
    fresh repository, every created identifier is a non-empty string
    different from the two seeded identifiers and is kept by any later
    [update] of that entity; two calls of the sequence are given the same
    identifier exactly when they read the same clock value and draw the
    same random suffix, so calls that differ in either get distinct
    identifiers.  When no two calls of the sequence coincide in both, the
    identifiers are pairwise distinct and every created entity is still
    stored under its identifier at the end. *)
Theorem created_identifiers (t1 t2 : Date)
    (calls : list (Date * string * DeviceData)) :
  let created := fst (create_calls calls (InMemoryDeviceRepository.new t1 t2)) in
  let final := snd (create_calls calls (InMemoryDeviceRepository.new t1 t2)) in
  (forall d, In d created ->
     (0 < String.length (id d))%nat /\
     id d <> "device_001" /\ id d <> "device_002") /\
  (forall d, In d created ->
     forall (now : Date) (p : PartialDevice)
            (devices : InMemoryDeviceRepository.Store) (d' : Device),
       fst (InMemoryDeviceRepository.update now (id d) p devices) = Some d' ->
       id d' = id d /\
       JsMap.get (id d)
         (snd (InMemoryDeviceRepository.update now (id d) p devices)) = Some d') /\
  (forall (i j : nat) (call_i call_j : Date * string * DeviceData)
          (d_i d_j : Device),
     nth_error calls i = Some call_i -> nth_error calls j = Some call_j ->
     nth_error created i = Some d_i -> nth_error created j = Some d_j ->
     (draw call_i <> draw call_j -> id d_i <> id d_j) /\
     (draw call_i = draw call_j -> id d_i = id d_j)) /\
  (NoDup (map draw calls) ->
   NoDup (map id created) /\
   (forall d, In d created -> JsMap.get (id d) final = Some d)).
Proof.
  intros created final.
  assert (Hgen : forall d, In d created ->
            exists call, id d = InMemoryDeviceRepository.generateId
                                  (fst (draw call)) (snd (fst call))).
  { intros d Hin.
    assert (Hid : In (id d) (map id created)) by now apply in_map.
    unfold created in Hid. rewrite create_calls_ids in Hid.
    apply in_map_iff in Hid as [call [Heq _]]. now exists call. }
  split; [| split; [| split]].
  - intros d Hin. destruct (Hgen d Hin) as [call ->]. split; [| split].
    + apply generateId_nonempty.
    + apply (generateId_not_seeded _ _ "1"). reflexivity.
    + apply (generateId_not_seeded _ _ "2"). reflexivity.
  - intros d _ now p devices d' Hupdate.
    unfold InMemoryDeviceRepository.update in *.
    destruct (JsMap.get (id d) devices); [| discriminate].
    cbn [fst snd] in *. injection Hupdate as <-.
    split; [reflexivity | apply get_set_same].
  - intros i j call_i call_j d_i d_j Hci Hcj Hdi Hdj.
    rewrite (created_id_at calls _ i call_i d_i Hci Hdi).
    rewrite (created_id_at calls _ j call_j d_j Hcj Hdj).
    split.
    + intros Hdiff Heq. apply Hdiff.
      destruct call_i as [[now random36] deviceData].
      destruct call_j as [[now' random36'] deviceData'].
      cbn [draw fst snd] in *.
      apply generateId_inj in Heq as [-> ->]. reflexivity.
    + apply same_draw_same_id.
  - intros Hdraws.
    assert (Hids : NoDup (map id created)).
    { unfold created. rewrite create_calls_ids.
      now apply distinct_draws_distinct_ids. }
    split; [exact Hids |].
    intros d Hin. now apply created_are_stored.
Qed.

Lemma created_identifiers_witness :
  NoDup (map id (fst (create_calls two_calls (InMemoryDeviceRepository.new 0 0)))) /\
  "device_1700000000000_4fzyo82mv" <> "device_1700000000000_9x1k3p7qz".
Proof.
  split.
  - refine (proj1 (proj2 (proj2 (proj2 (created_identifiers 0 0 two_calls))) _)).
    repeat constructor; simpl; intuition discriminate.
  - refine (proj1 (proj1 (proj2 (proj2 (created_identifiers 0 0 two_calls)))
                     0%nat 1%nat _ _
                     (mkDevice "device_1700000000000_4fzyo82mv" "Device 1"
                        AXIAL_FAN ONLINE 1700000000000
                        (mkMetadata None None None None))
                     (mkDevice "device_1700000000000_9x1k3p7qz" "Device 2"
                        FIRE_PANEL OFFLINE 1700000000000
                        (mkMetadata None None None None))
                     eq_refl eq_refl eq_refl eq_refl) _).
    cbn. intros H. discriminate H.
Defined.

(** C5 as stated fails: two [create] calls that read the same clock value
    and the same random suffix are given the same identifier, and the
    second entity replaces the first in the store. *)
Lemma create_same_draw_same_identifier :
  map id (fst (create_calls two_colliding_calls
                 (InMemoryDeviceRepository.new 0 0))) =
    ["device_1700000000000_4fzyo82mv"; "device_1700000000000_4fzyo82mv"] /\
  ~ NoDup (map id (fst (create_calls two_colliding_calls
                          (InMemoryDeviceRepository.new 0 0)))) /\
  map name
    (fst (InMemoryDeviceRepository.findAll
            (snd (create_calls two_colliding_calls
                    (InMemoryDeviceRepository.new 0 0))))) =
    ["Axial Fan A1"; "Fire Panel Main"; "Device 2"].
Proof.
  assert (Hids : map id (fst (create_calls two_colliding_calls
                                (InMemoryDeviceRepository.new 0 0))) =
                 ["device_1700000000000_4fzyo82mv";
                  "device_1700000000000_4fzyo82mv"])
    by (vm_compute; reflexivity).
  split; [exact Hids | split].
  - rewrite Hids. intros Hnd. apply NoDup_cons_iff in Hnd as [Hnotin _].
    apply Hnotin. now left.
  - vm_compute. reflexivity.
Qed.

(** ** More on the backing map *)

Lemma get_none_not_key {V} (k : string) (m : JsMap.t V) :
  JsMap.get k m = None <-> ~ In k (JsMap.keys m).
Proof.
  induction m as [| [k' v'] rest IH]; simpl.
  - tauto.
  - destruct (String.eqb_spec k' k) as [-> | Hneq].
    + split; [discriminate | intros H; exfalso; apply H; now left].
    + rewrite IH. tauto.
Qed.

Lemma set_absent {V} (k : string) (v : V) (m : JsMap.t V) :
  JsMap.get k m = None -> JsMap.set k v m = (m ++ [(k, v)])%list.
Proof.
  induction m as [| [k' v'] rest IH]; simpl; [reflexivity |].
  destruct (String.eqb_spec k' k); [discriminate |].
  intros H. now rewrite IH.
Qed.

Lemma keys_set_present {V} (k : string) (v v0 : V) (m : JsMap.t V) :
  JsMap.get k m = Some v0 -> JsMap.keys (JsMap.set k v m) = JsMap.keys m.
Proof.
  unfold JsMap.keys.
  induction m as [| [k' v'] rest IH]; simpl; [discriminate |].
  destruct (String.eqb_spec k' k) as [-> | Hneq]; simpl.
  - reflexivity.
  - intros H. f_equal. now apply IH.
Qed.

Lemma get_delete_other {V} (k k' : string) (m : JsMap.t V) :
  k <> k' -> JsMap.get k' (snd (JsMap.delete k m)) = JsMap.get k' m.
Proof.
  intros Hneq. unfold JsMap.delete; simpl.
  induction m as [| [k0 v0] rest IH]; simpl; [reflexivity |].
  destruct (String.eqb_spec k0 k) as [-> | Hk0]; simpl.
  - destruct (String.eqb_spec k k'); [contradiction | exact IH].
  - destruct (String.eqb_spec k0 k'); [reflexivity | exact IH].
Qed.

Lemma keys_delete {V} (k : string) (m : JsMap.t V) :
  JsMap.keys (snd (JsMap.delete k m)) =
  filter (fun k' => negb (k' =? k)%string) (JsMap.keys m).
Proof.
  unfold JsMap.delete, JsMap.keys; simpl.
  induction m as [| [k0 v0] rest IH]; simpl; [reflexivity |].
  destruct (String.eqb_spec k0 k); simpl; now rewrite IH.
Qed.

Lemma delete_set_fresh {V} (k : string) (v : V) (m : JsMap.t V) :
  JsMap.get k m = None -> JsMap.delete k (JsMap.set k v m) = (true, m).
Proof.
  intros Habsent. unfold JsMap.delete, JsMap.has.
  rewrite get_set_same. f_equal.
  rewrite (set_absent k v m Habsent).
  rewrite filter_app. simpl. rewrite String.eqb_refl. simpl.
  rewrite app_nil_r.
  pose proof (delete_absent k m Habsent) as H.
  unfold JsMap.delete in H. now injection H.
Qed.

Lemma length_delete_present {V} (k : string) (v : V) (m : JsMap.t V) :
  NoDup (JsMap.keys m) -> JsMap.get k m = Some v ->
  S (List.length (snd (JsMap.delete k m))) = List.length m.
Proof.
  unfold JsMap.delete; simpl.
  induction m as [| [k0 v0] rest IH]; simpl; [discriminate |].
  intros Hnd Hget. apply NoDup_cons_iff in Hnd as [Hfresh Hnd].
  destruct (String.eqb_spec k0 k) as [-> | Hneq]; simpl.
  - f_equal. apply get_none_not_key in Hfresh.
    pose proof (delete_absent k rest Hfresh) as H.
    unfold JsMap.delete in H. injection H as _ H. now rewrite H.
  - f_equal. now apply IH.
Qed.

Lemma in_get_of_nodup {V} (k : string) (v : V) (m : JsMap.t V) :
  NoDup (JsMap.keys m) -> In (k, v) m -> JsMap.get k m = Some v.
Proof.
  unfold JsMap.keys.
  induction m as [| [k0 v0] rest IH]; simpl; [tauto |].
  intros Hnd Hin. apply NoDup_cons_iff in Hnd as [Hfresh Hnd].
  destruct Hin as [[= -> ->] | Hin].
  - now rewrite String.eqb_refl.
  - destruct (String.eqb_spec k0 k) as [-> | Hneq]; [| now apply IH].
    exfalso. apply Hfresh. apply in_map_iff. now exists (k, v).
Qed.

Lemma get_in {V} (k : string) (v : V) (m : JsMap.t V) :
  JsMap.get k m = Some v -> In (k, v) m.
Proof.
  induction m as [| [k0 v0] rest IH]; simpl; [discriminate |].
  destruct (String.eqb_spec k0 k) as [-> | Hneq].
  - intros [= ->]. now left.
  - intros H. right. now apply IH.
Qed.

Lemma set_cases {V} (k : string) (v : V) (m : JsMap.t V) :
  (JsMap.get k m = None /\ JsMap.set k v m = (m ++ [(k, v)])%list) \/
  (exists v0, JsMap.get k m = Some v0 /\
              JsMap.keys (JsMap.set k v m) = JsMap.keys m).
Proof.
  destruct (JsMap.get k m) as [v0 |] eqn:Hget.
  - right. exists v0. split; [reflexivity | now apply keys_set_present with v0].
  - left. split; [reflexivity | now apply set_absent].
Qed.

Lemma Forall_set {V} (P : string * V -> Prop) (k : string) (v : V) (m : JsMap.t V) :
  Forall P m -> P (k, v) -> Forall P (JsMap.set k v m).
Proof.
  intros Hall Hkv.
  induction m as [| [k0 v0] rest IH]; simpl.
  - now constructor.
  - apply Forall_cons_iff in Hall as [H0 Hrest].
    destruct (String.eqb_spec k0 k); constructor; auto.
Qed.

Lemma well_keyed_set (k : string) (d : Device)
    (devices : InMemoryDeviceRepository.Store) :
  well_keyed devices -> id d = k -> well_keyed (JsMap.set k d devices).
Proof.
  intros [Hnd Hall] Hid. split.
  - destruct (set_cases k d devices) as [[Habsent ->] | [v0 [_ ->]]]; [| exact Hnd].
    unfold JsMap.keys in *. rewrite map_app. simpl.
    apply get_none_not_key in Habsent. unfold JsMap.keys in Habsent.
    apply NoDup_app; [exact Hnd | repeat constructor; simpl; tauto |].
    intros a Ha [<- | []]. exact (Habsent Ha).
  - apply Forall_set; [exact Hall | exact Hid].
Qed.

Lemma well_keyed_delete (k : string) (devices : InMemoryDeviceRepository.Store) :
  well_keyed devices -> well_keyed (snd (JsMap.delete k devices)).
Proof.
  intros [Hnd Hall]. split.
  - rewrite keys_delete. now apply NoDup_filter.
  - unfold JsMap.delete; simpl. apply Forall_forall.
    intros entry Hin. apply filter_In in Hin as [Hin _].
    rewrite Forall_forall in Hall. now apply Hall.
Qed.

Lemma new_lookup_other (t1 t2 : Date) (key : string) :
  key <> "device_001" -> key <> "device_002" ->
  JsMap.get key (InMemoryDeviceRepository.new t1 t2) = None.
Proof.
  intros H1 H2.
  unfold InMemoryDeviceRepository.new, InMemoryDeviceRepository.seedData,
    InMemoryDeviceRepository.sampleDevices.
  cbn [fold_left id]. rewrite !get_set_other by congruence. reflexivity.
Qed.

(** ** Further properties of the repository *)

(** X1: what [create] returns can be read back: [findById] on the returned
    identifier finds the returned entity, whose fields are those of the
    data given and whose identifier is the generated one; the entries
    under every other key are as before. *)
Theorem create_then_findById (now : Date) (random36 : string)
    (deviceData : DeviceData) (devices : InMemoryDeviceRepository.Store) :
  let device := fst (InMemoryDeviceRepository.create now random36 deviceData devices) in
  let devices' := snd (InMemoryDeviceRepository.create now random36 deviceData devices) in
  fst (InMemoryDeviceRepository.findById (id device) devices') = Some device /\
  id device = InMemoryDeviceRepository.generateId now random36 /\
  mkDeviceData (name device) (type device) (status device) (lastUpdate device)
               (metadata device) = deviceData /\
  (forall key, key <> id device ->
     fst (InMemoryDeviceRepository.findById key devices') =
     fst (InMemoryDeviceRepository.findById key devices)).
Proof.
  unfold InMemoryDeviceRepository.create, InMemoryDeviceRepository.findById.
  cbn [fst snd id name type status lastUpdate metadata]. repeat split.
  - apply get_set_same.
  - now destruct deviceData.
  - intros key Hneq. apply get_set_other. congruence.
Qed.

(** X2: [create] under an identifier the store does not hold yet puts the
    new entity at the end of what [findAll] returns and keeps the rest. *)
Theorem create_appends_to_findAll (now : Date) (random36 : string)
    (deviceData : DeviceData) (devices : InMemoryDeviceRepository.Store) :
  JsMap.get (InMemoryDeviceRepository.generateId now random36) devices = None ->
  fst (InMemoryDeviceRepository.findAll
         (snd (InMemoryDeviceRepository.create now random36 deviceData devices))) =
  (fst (InMemoryDeviceRepository.findAll devices) ++
   [fst (InMemoryDeviceRepository.create now random36 deviceData devices)])%list.
Proof.
  intros Hfresh.
  unfold InMemoryDeviceRepository.create, InMemoryDeviceRepository.findAll.
  cbn [fst snd]. rewrite (set_absent _ _ _ Hfresh).
  unfold JsMap.values. now rewrite map_app.
Qed.

Lemma create_appends_to_findAll_witness :
  map name
    (fst (InMemoryDeviceRepository.findAll
            (snd (InMemoryDeviceRepository.create 1700000000000 "0.4fzyo82mvyr"
                    (mkDeviceData "Device 1" AXIAL_FAN ONLINE 1700000000000
                       (mkMetadata None None None None))
                    (InMemoryDeviceRepository.new 0 0))))) =
  ["Axial Fan A1"; "Fire Panel Main"; "Device 1"].
Proof.
  rewrite (create_appends_to_findAll 1700000000000 "0.4fzyo82mvyr"
             (mkDeviceData "Device 1" AXIAL_FAN ONLINE 1700000000000
                (mkMetadata None None None None))
             (InMemoryDeviceRepository.new 0 0)).
  - reflexivity.
  - vm_compute. reflexivity.
Defined.

(** X3: [update] never adds or removes an entry and never reorders them:
    the keys of the store are the same before and after, whether or not
    the identifier is present, and the entries under other keys are
    untouched; it returns nothing exactly when the identifier is absent,
    and then the store is unchanged. *)
Theorem update_keeps_keys (now : Date) (key : string) (updates : PartialDevice)
    (devices : InMemoryDeviceRepository.Store) :
  JsMap.keys (snd (InMemoryDeviceRepository.update now key updates devices)) =
    JsMap.keys devices /\
  (forall key', key' <> key ->
     JsMap.get key' (snd (InMemoryDeviceRepository.update now key updates devices)) =
     JsMap.get key' devices) /\
  (fst (InMemoryDeviceRepository.update now key updates devices) = None <->
   JsMap.get key devices = None) /\
  (JsMap.get key devices = None ->
   snd (InMemoryDeviceRepository.update now key updates devices) = devices).
Proof.
  unfold InMemoryDeviceRepository.update.
  destruct (JsMap.get key devices) as [existing |] eqn:Hget; cbn [fst snd].
  - repeat split; try discriminate.
    + now apply keys_set_present with existing.
    + intros key' Hneq. apply get_set_other. congruence.
  - repeat split; reflexivity.
Qed.

(** X4: [delete] returns true exactly when the identifier was present;
    afterwards the identifier is absent, every other identifier is found
    as before, and deleting again returns false. *)
Theorem delete_removes_exactly (key : string)
    (devices : InMemoryDeviceRepository.Store) :
  (fst (InMemoryDeviceRepository.delete key devices) = true <->
   exists d, fst (InMemoryDeviceRepository.findById key devices) = Some d) /\
  fst (InMemoryDeviceRepository.findById key
         (snd (InMemoryDeviceRepository.delete key devices))) = None /\
  (forall key', key' <> key ->
     fst (InMemoryDeviceRepository.findById key'
            (snd (InMemoryDeviceRepository.delete key devices))) =
     fst (InMemoryDeviceRepository.findById key' devices)) /\
  fst (InMemoryDeviceRepository.delete key
         (snd (InMemoryDeviceRepository.delete key devices))) = false.
Proof.
  unfold InMemoryDeviceRepository.delete, InMemoryDeviceRepository.findById.
  cbn [fst]. repeat split.
  - unfold JsMap.delete, JsMap.has. cbn [fst].
    destruct (JsMap.get key devices) as [d |]; [eauto | discriminate].
  - intros [d Hd]. now apply delete_present with d.
  - apply get_delete_same.
  - intros key' Hneq. apply get_delete_other. congruence.
  - exact (f_equal fst (delete_absent key _ (get_delete_same key devices))).
Qed.

(** X5: the constructor produces a store in which every device sits under
    its own identifier and no identifier occurs twice, and [create],
    [update] and [delete] keep it so. *)
Theorem well_keyed_invariant (t1 t2 : Date) :
  well_keyed (InMemoryDeviceRepository.new t1 t2) /\
  (forall devices : InMemoryDeviceRepository.Store,
     well_keyed devices ->
     (forall now random36 deviceData,
        well_keyed (snd (InMemoryDeviceRepository.create now random36
                           deviceData devices))) /\
     (forall now key updates,
        well_keyed (snd (InMemoryDeviceRepository.update now key updates devices))) /\
     (forall key,
        well_keyed (snd (InMemoryDeviceRepository.delete key devices)))).
Proof.
  split.
  - unfold InMemoryDeviceRepository.new, InMemoryDeviceRepository.seedData,
      InMemoryDeviceRepository.sampleDevices. cbn [fold_left id].
    apply well_keyed_set; [apply well_keyed_set |]; try reflexivity.
    split; constructor.
  - intros devices Hok. split; [| split].
    + intros now random36 deviceData.
      unfold InMemoryDeviceRepository.create. cbn [snd].
      now apply well_keyed_set.
    + intros now key updates. unfold InMemoryDeviceRepository.update.
      destruct (JsMap.get key devices); cbn [snd]; [| exact Hok].
      now apply well_keyed_set.
    + intros key. now apply well_keyed_delete.
Qed.

(** X6: in such a store [findById] and [findAll] agree: a device is among
    those [findAll] returns exactly when [findById] on its identifier
    returns it, what [findById] returns carries the identifier asked for,
    and [findAll] lists no identifier twice. *)
Theorem findAll_agrees_with_findById (devices : InMemoryDeviceRepository.Store) :
  well_keyed devices ->
  (forall d, In d (fst (InMemoryDeviceRepository.findAll devices)) <->
             fst (InMemoryDeviceRepository.findById (id d) devices) = Some d) /\
  (forall key d, fst (InMemoryDeviceRepository.findById key devices) = Some d ->
                 id d = key) /\
  NoDup (map id (fst (InMemoryDeviceRepository.findAll devices))).
Proof.
  intros [Hnd Hall].
  unfold InMemoryDeviceRepository.findAll, InMemoryDeviceRepository.findById.
  cbn [fst]. rewrite Forall_forall in Hall. repeat split.
  - intros Hin. unfold JsMap.values in Hin.
    apply in_map_iff in Hin as [[k v] [Hv Hin]]. cbn [snd] in Hv. subst v.
    apply in_get_of_nodup; [exact Hnd |].
    pose proof (Hall _ Hin) as Hk. cbn [fst snd] in Hk. now rewrite Hk.
  - intros Hget. apply get_in in Hget. unfold JsMap.values.
    apply in_map_iff. now exists (id d, d).
  - intros key d Hget. apply get_in in Hget. exact (Hall _ Hget).
  - unfold JsMap.values. rewrite map_map.
    rewrite (map_ext_in _ fst); [exact Hnd |].
    intros entry Hin. now apply Hall.
Qed.

Lemma findAll_agrees_with_findById_witness :
  NoDup (map id (fst (InMemoryDeviceRepository.findAll
                        (InMemoryDeviceRepository.new 0 0)))).
Proof.
  refine (proj2 (proj2 (findAll_agrees_with_findById
                          (InMemoryDeviceRepository.new 0 0) _))).
  split.
  - repeat constructor; simpl; intuition discriminate.
  - repeat constructor.
Defined.

(** X7: in such a store [delete] takes exactly the device with that
    identifier out of what [findAll] returns and keeps the others in
    their order; when the identifier was present the count drops by
    one. *)
Theorem delete_filters_findAll (key : string)
    (devices : InMemoryDeviceRepository.Store) :
  well_keyed devices ->
  fst (InMemoryDeviceRepository.findAll
         (snd (InMemoryDeviceRepository.delete key devices))) =
    filter (fun d => negb (id d =? key)%string)
           (fst (InMemoryDeviceRepository.findAll devices)) /\
  (fst (InMemoryDeviceRepository.delete key devices) = true ->
   S (List.length (fst (InMemoryDeviceRepository.findAll
                          (snd (InMemoryDeviceRepository.delete key devices))))) =
   List.length (fst (InMemoryDeviceRepository.findAll devices))).
Proof.
  intros [Hnd Hall].
  unfold InMemoryDeviceRepository.findAll, InMemoryDeviceRepository.delete.
  cbn [fst]. split.
  - unfold JsMap.delete, JsMap.values. cbn [snd]. clear Hnd.
    induction devices as [| [k d] rest IH]; [reflexivity |].
    apply Forall_cons_iff in Hall as [Hd Hrest]. cbn [fst snd] in Hd.
    cbn [filter map fst snd]. rewrite Hd.
    destruct (k =? key)%string; cbn [negb map snd]; now rewrite IH.
  - unfold JsMap.values. rewrite !length_map.
    unfold JsMap.delete at 1, JsMap.has. cbn [fst].
    destruct (JsMap.get key devices) as [d |] eqn:Hget; [| discriminate].
    intros _. now apply length_delete_present with d.
Qed.

Lemma delete_filters_findAll_witness :
  map id (fst (InMemoryDeviceRepository.findAll
                 (snd (InMemoryDeviceRepository.delete "device_001"
                         (InMemoryDeviceRepository.new 0 0))))) =
  ["device_002"].
Proof.
  assert (Hok : well_keyed (InMemoryDeviceRepository.new 0 0)).
  { split.
    - repeat constructor; simpl; intuition discriminate.
    - repeat constructor. }
  rewrite (proj1 (delete_filters_findAll "device_001"
                    (InMemoryDeviceRepository.new 0 0) Hok)).
  reflexivity.
Defined.

(** X8: [delete] undoes a [create] under a fresh identifier: it returns
    true and the store is the one before the [create]. *)
Theorem delete_undoes_create (now : Date) (random36 : string)
    (deviceData : DeviceData) (devices : InMemoryDeviceRepository.Store) :
  JsMap.get (InMemoryDeviceRepository.generateId now random36) devices = None ->
  InMemoryDeviceRepository.delete
    (id (fst (InMemoryDeviceRepository.create now random36 deviceData devices)))
    (snd (InMemoryDeviceRepository.create now random36 deviceData devices)) =
  (true, devices).
Proof.
  intros Hfresh.
  unfold InMemoryDeviceRepository.create, InMemoryDeviceRepository.delete.
  cbn [fst snd id]. now apply delete_set_fresh.
Qed.

Lemma delete_undoes_create_witness :
  InMemoryDeviceRepository.delete "device_1700000000000_4fzyo82mv"
    (snd (InMemoryDeviceRepository.create 1700000000000 "0.4fzyo82mvyr"
            (mkDeviceData "Device 1" AXIAL_FAN ONLINE 1700000000000
               (mkMetadata None None None None))
            (InMemoryDeviceRepository.new 0 0))) =
  (true, InMemoryDeviceRepository.new 0 0).
Proof.
  refine (delete_undoes_create 1700000000000 "0.4fzyo82mvyr"
            (mkDeviceData "Device 1" AXIAL_FAN ONLINE 1700000000000
               (mkMetadata None None None None))
            (InMemoryDeviceRepository.new 0 0) _).
  vm_compute. reflexivity.
Defined.

Lemma create_calls_values (calls : list (Date * string * DeviceData))
    (devices : InMemoryDeviceRepository.Store) :
  NoDup (map id (fst (create_calls calls devices))) ->
  (forall k, In k (map id (fst (create_calls calls devices))) ->
             JsMap.get k devices = None) ->
  JsMap.values (snd (create_calls calls devices)) =
  (JsMap.values devices ++ fst (create_calls calls devices))%list.
Proof.
  revert devices. induction calls as [| [[now random36] deviceData] rest IH];
    intros devices Hnd Hfresh.
  - cbn. now rewrite app_nil_r.
  - rewrite create_calls_cons in *. cbn [fst snd map] in *.
    apply NoDup_cons_iff in Hnd as [Hhead Hnd].
    rewrite IH.
    + unfold InMemoryDeviceRepository.create in *. cbn [fst snd id] in *.
      rewrite set_absent by (apply Hfresh; now left).
      unfold JsMap.values. rewrite map_app. cbn [map snd].
      now rewrite <- app_assoc.
    + exact Hnd.
    + intros k Hin.
      unfold InMemoryDeviceRepository.create in *. cbn [fst snd id] in *.
      rewrite get_set_other.
      * apply Hfresh. now right.
      * intros <-. exact (Hhead Hin).
Qed.

(** X9: after a sequence of [create] calls on a fresh repository in which
    no two calls draw the same clock reading together with the same
    random suffix, [findAll] returns the two seeded devices followed by
    the created ones in call order. *)
Theorem findAll_after_creates (t1 t2 : Date)
    (calls : list (Date * string * DeviceData)) :
  NoDup (map draw calls) ->
  fst (InMemoryDeviceRepository.findAll
         (snd (create_calls calls (InMemoryDeviceRepository.new t1 t2)))) =
    (InMemoryDeviceRepository.sampleDevices t1 t2 ++
     fst (create_calls calls (InMemoryDeviceRepository.new t1 t2)))%list /\
  List.length
    (fst (InMemoryDeviceRepository.findAll
            (snd (create_calls calls (InMemoryDeviceRepository.new t1 t2))))) =
    (2 + List.length calls)%nat.
Proof.
  intros Hdraws.
  assert (Hvalues :
    JsMap.values (snd (create_calls calls (InMemoryDeviceRepository.new t1 t2))) =
    (InMemoryDeviceRepository.sampleDevices t1 t2 ++
     fst (create_calls calls (InMemoryDeviceRepository.new t1 t2)))%list).
  { rewrite create_calls_values.
    - reflexivity.
    - rewrite create_calls_ids. now apply distinct_draws_distinct_ids.
    - intros k Hin. rewrite create_calls_ids in Hin.
      apply in_map_iff in Hin as [call [<- _]].
      apply new_lookup_other.
      + apply (generateId_not_seeded _ _ "1"). reflexivity.
      + apply (generateId_not_seeded _ _ "2"). reflexivity. }
  unfold InMemoryDeviceRepository.findAll. cbn [fst]. split; [exact Hvalues |].
  rewrite Hvalues, length_app.
  rewrite <- (length_map id (fst (create_calls calls _))).
  rewrite create_calls_ids, length_map. reflexivity.
Qed.

Lemma findAll_after_creates_witness :
  List.length
    (fst (InMemoryDeviceRepository.findAll
            (snd (create_calls two_calls (InMemoryDeviceRepository.new 0 0))))) =
  4%nat.
Proof.
  refine (proj2 (findAll_after_creates 0 0 two_calls _)).
  repeat constructor; simpl; intuition discriminate.
Defined.

(** ** Further properties of the service over the in-memory repository *)

Lemma isValidId_string (ident : JValue) :
  ValidationService.isValidId ident = true -> exists s, ident = JStr s.
Proof.
  intros H. apply isValidId_spec in H as [s [-> _]]. now exists s.
Qed.

(** X10: the read operations leave the in-memory store as it is:
    [getDevice] returns a device exactly when the identifier is a
    well-formed string under which the store holds that device, and
    [listDevices] returns every stored device in store order. *)
Theorem reads_leave_store (ident : JValue)
    (devices : InMemoryDeviceRepository.Store) :
  snd (DeviceService.getDevice InMemoryDeviceRepository.repository ident devices) =
    devices /\
  (forall d,
     fst (DeviceService.getDevice InMemoryDeviceRepository.repository ident devices) =
       inr d <->
     exists s, ident = JStr s /\ ValidationService.isValidId ident = true /\
               JsMap.get s devices = Some d) /\
  DeviceService.listDevices InMemoryDeviceRepository.repository devices =
    (inr (JsMap.values devices), devices).
Proof.
  destruct (ValidationService.isValidId ident) eqn:Hvalid.
  - destruct (isValidId_string ident Hvalid) as [s ->].
    rewrite (getDevice_valid _ s devices Hvalid).
    cbn [repo_findById InMemoryDeviceRepository.repository].
    unfold InMemoryDeviceRepository.findById.
    destruct (JsMap.get s devices) as [d0 |] eqn:Hget; cbn [fst snd];
      repeat split; try reflexivity.
    + intros [= <-]. exists s. now repeat split.
    + intros [s' [[= <-] [_ Hd]]]. rewrite Hget in Hd. now injection Hd as ->.
    + discriminate.
    + intros [s' [[= <-] [_ Hd]]]. rewrite Hget in Hd. discriminate.
  - rewrite (getDevice_invalid _ ident devices Hvalid). cbn [fst snd].
    repeat split; try reflexivity.
    + discriminate.
    + intros [s [_ [H _]]]. discriminate.
Qed.

(** X11: a successful [updateDevice] on the in-memory repository returns
    the stored device with the validated name, status and metadata
    written over it, its type kept, the identifier asked for, and
    [lastUpdate] set to the repository's clock reading; the timestamp the
    service puts into the update is not the one that is stored.  A name,
    status or metadata the body provides is the one returned, one it
    omits is the stored one.  The store holds the returned device under
    that identifier. *)
Theorem updateDevice_in_memory (zod_message : ZodIssue -> string)
    (service_now repository_now : Date) (s : string) (body : JValue)
    (v : DeviceUpdateRequest) (e : Device)
    (devices : InMemoryDeviceRepository.Store) :
  ValidationService.isValidId (JStr s) = true ->
  ValidationService.validateDeviceUpdate zod_message body = inr v ->
  JsMap.get s devices = Some e ->
  let updated :=
    mkDevice s (overwrite (name e) (req_name v)) (type e)
             (overwrite (status e) (req_status v)) repository_now
             (overwrite (metadata e) (req_metadata v)) in
  DeviceService.updateDevice InMemoryDeviceRepository.repository zod_message
    service_now repository_now (JStr s) body devices =
    (inr updated, JsMap.set s updated devices) /\
  fst (DeviceService.getDevice InMemoryDeviceRepository.repository (JStr s)
         (JsMap.set s updated devices)) = inr updated /\
  (forall n, req_name v = Some n -> name updated = n) /\
  (req_name v = None -> name updated = name e) /\
  (forall st, req_status v = Some st -> status updated = st) /\
  (req_status v = None -> status updated = status e) /\
  (forall m, req_metadata v = Some m -> metadata updated = m) /\
  (req_metadata v = None -> metadata updated = metadata e) /\
  type updated = type e /\ id updated = s /\
  lastUpdate updated = repository_now.
Proof.
  intros Hid Hbody Hget updated. split; [| split].
  - rewrite (updateDevice_valid _ zod_message service_now repository_now s body
               v devices Hid Hbody).
    cbn [repo_findById repo_update InMemoryDeviceRepository.repository].
    unfold InMemoryDeviceRepository.findById, InMemoryDeviceRepository.update.
    rewrite Hget. reflexivity.
  - rewrite (getDevice_valid _ s _ Hid).
    cbn [repo_findById InMemoryDeviceRepository.repository].
    unfold InMemoryDeviceRepository.findById. now rewrite get_set_same.
  - unfold updated. cbn [name status metadata type id lastUpdate].
    repeat split; try (intros x Hx; now rewrite Hx); intros Hx; now rewrite Hx.
Qed.

Lemma updateDevice_in_memory_witness :
  fst (DeviceService.updateDevice InMemoryDeviceRepository.repository
         (fun _ => "invalid") 7 8 (JStr "device_001")
         (JObj [("name", JStr "Axial Fan B2"); ("status", JStr "MAINTENANCE");
                ("metadata", JObj [("location", JStr "Roof")])])
         (InMemoryDeviceRepository.new 0 0)) =
  inr (mkDevice "device_001" "Axial Fan B2" AXIAL_FAN MAINTENANCE 8
         (mkMetadata (Some "Roof") None None None)).
Proof.
  rewrite (proj1 (updateDevice_in_memory (fun _ => "invalid") 7 8 "device_001"
                    (JObj [("name", JStr "Axial Fan B2");
                           ("status", JStr "MAINTENANCE");
                           ("metadata", JObj [("location", JStr "Roof")])])
                    (mkRequest (Some "Axial Fan B2") (Some MAINTENANCE)
                               (Some (mkMetadata (Some "Roof") None None None)))
                    (mkDevice "device_001" "Axial Fan A1" AXIAL_FAN ONLINE 0
                       (mkMetadata (Some "Building A") (Some "TechCorp")
                                   (Some "AF-100") (Some "1.2.3")))
                    (InMemoryDeviceRepository.new 0 0)
                    eq_refl eq_refl eq_refl)).
  reflexivity.
Defined.

(** X12: on the in-memory repository [updateDevice] never adds, removes or
    reorders an entry, whatever the identifier and the body; when it
    fails the store is exactly as before and the error is a
    ValidationError or a NotFoundError, never the internal fault. *)
Theorem updateDevice_never_creates (zod_message : ZodIssue -> string)
    (service_now repository_now : Date) (ident body : JValue)
    (devices : InMemoryDeviceRepository.Store) :
  JsMap.keys
    (snd (DeviceService.updateDevice InMemoryDeviceRepository.repository
            zod_message service_now repository_now ident body devices)) =
    JsMap.keys devices /\
  (forall err,
     fst (DeviceService.updateDevice InMemoryDeviceRepository.repository
            zod_message service_now repository_now ident body devices) = inl err ->
     (err_name err = "ValidationError" \/ err_name err = "NotFoundError") /\
     snd (DeviceService.updateDevice InMemoryDeviceRepository.repository
            zod_message service_now repository_now ident body devices) = devices).
Proof.
  destruct (ValidationService.isValidId ident) eqn:Hvalid.
  - destruct (isValidId_string ident Hvalid) as [s ->].
    destruct (ValidationService.validateDeviceUpdate zod_message body)
      as [e | v] eqn:Hbody.
    + rewrite (updateDevice_invalid_body _ zod_message service_now
                 repository_now s body e devices Hvalid Hbody).
      cbn [fst snd]. split; [reflexivity |].
      intros err [= <-]. split; [| reflexivity].
      left. exact (proj1 (validation_error_name _ _ _ Hbody)).
    + rewrite (updateDevice_valid _ zod_message service_now repository_now s
                 body v devices Hvalid Hbody).
      cbn [repo_findById repo_update InMemoryDeviceRepository.repository].
      unfold InMemoryDeviceRepository.findById, InMemoryDeviceRepository.update.
      destruct (JsMap.get s devices) as [existing |] eqn:Hget; cbn [fst snd].
      * split; [now apply keys_set_present with existing | discriminate].
      * split; [reflexivity |].
        intros err [= <-]. split; [now right | reflexivity].
  - rewrite (updateDevice_invalid_id _ zod_message service_now repository_now
               ident body devices Hvalid).
    cbn [fst snd]. split; [reflexivity |].
    intros err [= <-]. split; [now left | reflexivity].
Qed.

(** ** Further properties of validation *)

Lemma z_string_sound (path : list string) (x : JValue) (n : string) :
  z_string path x = inr n -> x = JStr n.
Proof.
  destruct x; simpl; intros [=]. now subst.
Qed.

Lemma z_optional_string_sound (path : list string) (key : string)
    (fields : list (string * JValue)) (r : option string) :
  z_optional_key z_string path key fields = inr r ->
  prop_get key fields = option_map JStr r.
Proof.
  unfold z_optional_key. destruct (prop_get key fields) as [x |].
  - destruct (z_string _ x) as [i | n] eqn:Hx; intros [= <-].
    apply z_string_sound in Hx. now subst.
  - now intros [= <-].
Qed.

Lemma z_enum_status_sound (path : list string) (x : JValue) (st : DeviceStatus) :
  z_enum_status path x = inr st -> x = JStr (DeviceStatus_name st).
Proof.
  destruct x; simpl; try discriminate.
  repeat match goal with
         | |- context [String.eqb ?a ?b] =>
             destruct (String.eqb_spec a b) as [-> | ?];
             [now intros [= <-] |]
         end.
  discriminate.
Qed.

(** X13: what validation returns is the declared part of the body and
    nothing else: the body is an object, the name, status and metadata
    sub-fields of the result are present exactly when the body has them
    and carry the same strings, and a name that passes has between 1 and
    100 code units. *)
Theorem validated_update_reflects_body (zod_message : ZodIssue -> string)
    (body : JValue) (r : DeviceUpdateRequest) :
  ValidationService.validateDeviceUpdate zod_message body = inr r ->
  exists fields,
    body = JObj fields /\
    prop_get "name" fields = option_map JStr (req_name r) /\
    (forall n, req_name r = Some n -> (1 <= String.length n <= 100)%nat) /\
    prop_get "status" fields =
      option_map (fun st => JStr (DeviceStatus_name st)) (req_status r) /\
    match req_metadata r with
    | None => prop_get "metadata" fields = None
    | Some md =>
        exists inner,
          prop_get "metadata" fields = Some (JObj inner) /\
          prop_get "location" inner = option_map JStr (location md) /\
          prop_get "manufacturer" inner = option_map JStr (manufacturer md) /\
          prop_get "model" inner = option_map JStr (model md) /\
          prop_get "version" inner = option_map JStr (version md)
    end.
Proof.
  unfold ValidationService.validateDeviceUpdate.
  destruct (deviceUpdateSchema body) as [i | r'] eqn:Hparse; intros [= <-].
  destruct body as [| | | | | fields]; try discriminate.
  exists fields. split; [reflexivity |].
  unfold deviceUpdateSchema, zbind in Hparse.
  destruct (z_optional_key (z_string_min_max 1 100) [] "name" fields)
    as [i | n] eqn:Hname; [discriminate |].
  destruct (z_optional_key z_enum_status [] "status" fields)
    as [i | st] eqn:Hstatus; [discriminate |].
  destruct (z_optional_key z_metadata [] "metadata" fields)
    as [i | md] eqn:Hmeta; [discriminate |].
  injection Hparse as <-. cbn [req_name req_status req_metadata].
  unfold z_optional_key in Hname, Hstatus, Hmeta.
  repeat split.
  - destruct (prop_get "name" fields) as [x |]; [| now injection Hname as <-].
    unfold z_string_min_max in Hname.
    destruct (z_string _ x) as [i | s] eqn:Hx; [discriminate |].
    apply z_string_sound in Hx. subst x.
    destruct (String.length s <? 1)%nat; [discriminate |].
    destruct (100 <? String.length s)%nat; [discriminate |].
    now injection Hname as <-.
  - destruct (prop_get "name" fields) as [x |]; [| now injection Hname as <-].
    unfold z_string_min_max in Hname.
    destruct (z_string _ x) as [i | s] eqn:Hx; [discriminate |].
    destruct (String.length s <? 1)%nat eqn:Hlo; [discriminate |].
    destruct (100 <? String.length s)%nat eqn:Hhi; [discriminate |].
    injection Hname as <-. injection H as <-.
    apply Nat.ltb_ge in Hlo. exact Hlo.
  - destruct (prop_get "name" fields) as [x |]; [| now injection Hname as <-].
    unfold z_string_min_max in Hname.
    destruct (z_string _ x) as [i | s] eqn:Hx; [discriminate |].
    destruct (String.length s <? 1)%nat eqn:Hlo; [discriminate |].
    destruct (100 <? String.length s)%nat eqn:Hhi; [discriminate |].
    injection Hname as <-. injection H as <-.
    apply Nat.ltb_ge in Hhi. exact Hhi.
  - destruct (prop_get "status" fields) as [x |]; [| now injection Hstatus as <-].
    destruct (z_enum_status _ x) as [i | s] eqn:Hx; [discriminate |].
    injection Hstatus as <-. apply z_enum_status_sound in Hx. now subst.
  - destruct (prop_get "metadata" fields) as [x |]; [| now injection Hmeta as <-].
    destruct (z_metadata _ x) as [i | m] eqn:Hx; [discriminate |].
    injection Hmeta as <-.
    destruct x as [| | | | | inner]; try discriminate.
    exists inner. split; [reflexivity |].
    unfold z_metadata, zbind in Hx.
    destruct (z_optional_key z_string _ "location" inner) as [i | l] eqn:Hl;
      [discriminate |].
    destruct (z_optional_key z_string _ "manufacturer" inner) as [i | f] eqn:Hf;
      [discriminate |].
    destruct (z_optional_key z_string _ "model" inner) as [i | o] eqn:Ho;
      [discriminate |].
    destruct (z_optional_key z_string _ "version" inner) as [i | w] eqn:Hw;
      [discriminate |].
    injection Hx as <-. cbn [location manufacturer model version].
    repeat split; eapply z_optional_string_sound; eassumption.
Qed.

Lemma validated_update_reflects_body_witness :
  exists fields,
    JObj [("name", JStr "Fan"); ("id", JStr "device_999")] = JObj fields /\
    prop_get "name" fields = Some (JStr "Fan").
Proof.
  destruct (validated_update_reflects_body (fun _ => "invalid")
              (JObj [("name", JStr "Fan"); ("id", JStr "device_999")])
              (mkRequest (Some "Fan") None None) eq_refl)
    as [fields [Hbody [Hname _]]].
  exists fields. split; [exact Hbody | exact Hname].
Defined.

(** X14: validation looks at the name, status and metadata properties
    only: two bodies that agree on these three validate to the same
    result, so a body cannot carry an id, a type or a lastUpdate into the
    update. *)
Theorem validation_ignores_other_keys (zod_message : ZodIssue -> string)
    (fields fields' : list (string * JValue)) :
  prop_get "name" fields = prop_get "name" fields' ->
  prop_get "status" fields = prop_get "status" fields' ->
  prop_get "metadata" fields = prop_get "metadata" fields' ->
  ValidationService.validateDeviceUpdate zod_message (JObj fields) =
  ValidationService.validateDeviceUpdate zod_message (JObj fields').
Proof.
  intros Hn Hs Hm.
  unfold ValidationService.validateDeviceUpdate, deviceUpdateSchema,
    z_optional_key.
  now rewrite Hn, Hs, Hm.
Qed.

Lemma validation_ignores_other_keys_witness :
  ValidationService.validateDeviceUpdate (fun _ => "invalid")
    (JObj [("id", JStr "device_999"); ("status", JStr "OFFLINE");
           ("type", JStr "PUMP")]) =
  ValidationService.validateDeviceUpdate (fun _ => "invalid")
    (JObj [("status", JStr "OFFLINE")]).
Proof.
  apply (validation_ignores_other_keys (fun _ => "invalid")
           [("id", JStr "device_999"); ("status", JStr "OFFLINE");
            ("type", JStr "PUMP")]
           [("status", JStr "OFFLINE")]); reflexivity.
Defined.

(** X15: a body that is not an object (null, a boolean, a number, a
    string, an array) is rejected with a ValidationError of status 400
    whose field is 'unknown', the path of the issue being empty. *)
Theorem non_object_body_rejected (zod_message : ZodIssue -> string)
    (body : JValue) :
  (forall fields, body <> JObj fields) ->
  ValidationService.validateDeviceUpdate zod_message body =
  inl (mkError "ValidationError"
         ("Invalid unknown: " ++
          js_or (zod_message (mkIssue [] invalid_type body)) "Validation failed")
         (Some "VALIDATION_ERROR") (Some 400%Z) (Some "unknown")).
Proof.
  intros Hnot. destruct body; try reflexivity.
  exfalso. now apply (Hnot l).
Qed.

Lemma non_object_body_rejected_witness :
  ValidationService.validateDeviceUpdate (fun _ => "") JNull =
  inl (mkError "ValidationError" "Invalid unknown: Validation failed"
         (Some "VALIDATION_ERROR") (Some 400%Z) (Some "unknown")).
Proof.
  apply (non_object_body_rejected (fun _ => "") JNull).
  intros fields H. discriminate H.
Defined.



(** ** Properties of the configuration loader *)

Lemma digits_prefix_of_numeral (d : Decimal.uint) (rest : string) :
  digits_prefix rest = Decimal.Nil ->
  digits_prefix (NilEmpty.string_of_uint d ++ rest) = d.
Proof.
  intros Hrest. induction d; simpl; try (now rewrite IHd). exact Hrest.
Qed.

Lemma parseInt10_unsigned (s : string) :
  digits_prefix s <> Decimal.Nil ->
  parseInt10 s = Some (Z.of_uint (digits_prefix s)).
Proof.
  intros Hdigits. destruct s as [| c s']; [now contradiction Hdigits |].
  destruct c as [[] [] [] [] [] [] [] []];
    try (exfalso; apply Hdigits; reflexivity);
    unfold parseInt10;
    match goal with
    | |- context [trim_start (String ?c ?r)] =>
        change (trim_start (String c r)) with (String c r)
    end;
    cbv beta iota zeta; cbn [digits_prefix]; cbv beta iota;
    now rewrite Z.mul_1_l.
Qed.

Lemma parseInt10_negative (s : string) :
  digits_prefix s <> Decimal.Nil ->
  parseInt10 (String "-" s) = Some (- Z.of_uint (digits_prefix s))%Z.
Proof.
  intros Hdigits. unfold parseInt10.
  change (trim_start (String "-" s)) with (String "-" s).
  cbv beta iota zeta.
  destruct (digits_prefix s); try contradiction; f_equal; lia.
Qed.

Lemma parseInt10_of_numeral (d : Decimal.uint) (rest : string) :
  d <> Decimal.Nil ->
  digits_prefix rest = Decimal.Nil ->
  parseInt10 (NilEmpty.string_of_uint d ++ rest) = Some (Z.of_uint d) /\
  parseInt10 (String "-" (NilEmpty.string_of_uint d ++ rest)) =
    Some (- Z.of_uint d)%Z.
Proof.
  intros Hd Hrest.
  pose proof (digits_prefix_of_numeral d rest Hrest) as Hdigits.
  split.
  - rewrite parseInt10_unsigned; rewrite Hdigits; [reflexivity | exact Hd].
  - rewrite parseInt10_negative; rewrite Hdigits; [reflexivity | exact Hd].
Qed.

Lemma parseInt10_decimal (n : Z) (rest : string) :
  digits_prefix rest = Decimal.Nil ->
  parseInt10 (string_of_Z n ++ rest) = Some n.
Proof.
  intros Hrest. unfold string_of_Z.
  rewrite <- (DecimalZ.of_to n) at 2.
  destruct (Z.to_int n) as [d | d] eqn:Hint.
  - assert (Hd : d <> Decimal.Nil).
    { intros ->. destruct n; simpl in Hint; try discriminate.
      injection Hint as Hint.
      exact (DecimalPos.Unsigned.to_uint_nonnil _ Hint). }
    cbn [NilZero.string_of_int Z.of_int].
    replace (NilZero.string_of_uint d) with (NilEmpty.string_of_uint d)
      by (destruct d; try reflexivity; contradiction).
    exact (proj1 (parseInt10_of_numeral d rest Hd Hrest)).
  - assert (Hd : d <> Decimal.Nil).
    { intros ->. destruct n; simpl in Hint; try discriminate.
      injection Hint as Hint.
      exact (DecimalPos.Unsigned.to_uint_nonnil _ Hint). }
    cbn [NilZero.string_of_int Z.of_int].
    replace (NilZero.string_of_uint d) with (NilEmpty.string_of_uint d)
      by (destruct d; try reflexivity; contradiction).
    exact (proj2 (parseInt10_of_numeral d rest Hd Hrest)).
Qed.

(** [parseInt] reads back an integer written in decimal, negative
    ones included, also after leading white space and also when
    something that does not start with a digit follows it. *)
Theorem parseInt10_string_of_Z (n : Z) (rest : string) :
  digits_prefix rest = Decimal.Nil ->
  parseInt10 (string_of_Z n ++ rest) = Some n /\
  (forall c, is_white_space c = true ->
     parseInt10 (String c (string_of_Z n ++ rest)) = Some n).
Proof.
  intros Hrest. split; [now apply parseInt10_decimal |].
  intros c Hc. rewrite <- (parseInt10_decimal n rest Hrest).
  unfold parseInt10. cbn [trim_start]. now rewrite Hc.
Qed.

Lemma parseInt10_string_of_Z_witness :
  parseInt10 (string_of_Z (-8080) ++ "px") = Some (-8080)%Z.
Proof.
  apply (parseInt10_string_of_Z (-8080) "px"). reflexivity.
Defined.

Lemma getPort_bounds (env : ProcessEnv) (p : Z) :
  ConfigService.getPort env = inr p -> (1 <= p <= 65535)%Z.
Proof.
  unfold ConfigService.getPort.
  destruct (parseInt10 _) as [port |]; [| discriminate].
  destruct (port <? 1)%Z eqn:Hlo; [discriminate |].
  destruct (port >? 65535)%Z eqn:Hhi; [discriminate |].
  intros [= <-]. lia.
Qed.

Lemma env_or_unset (env : ProcessEnv) (variable fallback : string) :
  JsMap.get variable env = None \/ JsMap.get variable env = Some "" ->
  env_or env variable fallback = fallback.
Proof.
  unfold env_or. intros [-> | ->]; reflexivity.
Qed.

Lemma env_or_set (env : ProcessEnv) (variable fallback value : string) :
  JsMap.get variable env = Some value -> value <> "" ->
  env_or env variable fallback = value.
Proof.
  unfold env_or. intros -> Hne. destruct value; [contradiction | reflexivity].
Qed.

Lemma append_empty (s : string) : s ++ "" = s.
Proof.
  induction s as [| c s IH]; simpl; [reflexivity | now rewrite IH].
Qed.

Lemma string_of_Z_nonempty (n : Z) (rest : string) :
  string_of_Z n ++ rest <> "".
Proof.
  unfold string_of_Z.
  destruct (Z.to_int n) as [d | d]; cbn [NilZero.string_of_int];
    [| discriminate].
  destruct d; discriminate.
Qed.

(** X17: [getPort] returns a port between 1 and 65535 or throws 'Invalid
    PORT configuration'; with PORT unset or empty it returns 3000; with
    PORT an integer in decimal, possibly followed by text that does not
    start with a digit, it returns that integer when it is in range and
    throws otherwise. *)
Theorem getPort_in_range (env : ProcessEnv) :
  (forall p, ConfigService.getPort env = inr p -> (1 <= p <= 65535)%Z) /\
  (forall e, ConfigService.getPort env = inl e ->
             e = Error_ "Invalid PORT configuration") /\
  (JsMap.get "PORT" env = None \/ JsMap.get "PORT" env = Some "" ->
   ConfigService.getPort env = inr 3000%Z) /\
  (forall n rest,
     JsMap.get "PORT" env = Some (string_of_Z n ++ rest) ->
     digits_prefix rest = Decimal.Nil ->
     ConfigService.getPort env =
       if ((1 <=? n) && (n <=? 65535))%Z then inr n
       else inl (Error_ "Invalid PORT configuration")).
Proof.
  split; [| split; [| split]].
  - apply getPort_bounds.
  - intros e H. unfold ConfigService.getPort in H.
    destruct (parseInt10 _) as [port |]; [| now injection H as <-].
    destruct ((port <? 1)%Z || (port >? 65535)%Z); [| discriminate].
    now injection H as <-.
  - intros Hunset. unfold ConfigService.getPort.
    now rewrite (env_or_unset env "PORT" "3000" Hunset).
  - intros n rest Hset Hrest. unfold ConfigService.getPort.
    rewrite (env_or_set env "PORT" "3000" _ Hset (string_of_Z_nonempty n rest)).
    rewrite (parseInt10_decimal n rest Hrest).
    destruct (n <? 1)%Z eqn:Hlo; destruct (n >? 65535)%Z eqn:Hhi;
      destruct (1 <=? n)%Z eqn:Hlo'; destruct (n <=? 65535)%Z eqn:Hhi';
      try reflexivity; lia.
Qed.

Lemma includes_spec (level : string) (l : LogLevel.t) :
  ConfigService.includes level = Some l <-> level = LogLevel.name l.
Proof.
  unfold ConfigService.includes, ConfigService.validLevels. cbn [find].
  split.
  - repeat match goal with
           | |- context [String.eqb ?a ?b] =>
               destruct (String.eqb_spec a b) as [<- | ?];
               [now intros [= <-] |]
           end.
    discriminate.
  - intros ->. destruct l; reflexivity.
Qed.

(** X18: [getLogLevel] returns a level exactly when LOG_LEVEL, or 'info'
    when it is unset or empty, is the name of that level, letter for
    letter; otherwise it throws an Error whose message quotes the value
    and lists the four levels. *)
Theorem getLogLevel_exact (env : ProcessEnv) :
  (forall l, ConfigService.getLogLevel env = inr l <->
             env_or env "LOG_LEVEL" "info" = LogLevel.name l) /\
  (JsMap.get "LOG_LEVEL" env = None \/ JsMap.get "LOG_LEVEL" env = Some "" ->
   ConfigService.getLogLevel env = inr LogLevel.info) /\
  (forall e, ConfigService.getLogLevel env = inl e ->
     e = Error_ ("Invalid LOG_LEVEL: " ++ env_or env "LOG_LEVEL" "info" ++
                 ". Must be one of: debug, info, warn, error")).
Proof.
  split; [| split].
  - intros l. unfold ConfigService.getLogLevel.
    destruct (ConfigService.includes _) as [l' |] eqn:Hinc.
    + apply includes_spec in Hinc. split.
      * now intros [= <-].
      * intros Heq. rewrite Heq in Hinc. f_equal.
        destruct l, l'; try reflexivity; discriminate.
    + split; [discriminate |].
      intros Heq. apply includes_spec in Heq. rewrite Heq in Hinc. discriminate.
  - intros Hunset. unfold ConfigService.getLogLevel.
    now rewrite (env_or_unset env "LOG_LEVEL" "info" Hunset).
  - intros e. unfold ConfigService.getLogLevel.
    destruct (ConfigService.includes _); [discriminate |].
    now intros [= <-].
Qed.

(** X19: [load] succeeds exactly when [getPort] and [getLogLevel] do, and
    then carries their results; an invalid PORT is the error reported
    even when LOG_LEVEL is invalid too; the database port is not
    checked: any integer in DB_PORT that a Number holds exactly, in
    range for a port or not, is loaded as it is. *)
Theorem load_checks_port_and_level_only (env : ProcessEnv) :
  (forall cfg, ConfigService.load env = inr cfg ->
     ConfigService.getPort env = inr (cfg_port cfg) /\
     ConfigService.getLogLevel env = inr (cfg_logLevel cfg) /\
     (1 <= cfg_port cfg <= 65535)%Z) /\
  (forall p l, ConfigService.getPort env = inr p ->
               ConfigService.getLogLevel env = inr l ->
               exists db, ConfigService.load env = inr (mkAppConfig p l db)) /\
  (forall e, ConfigService.getPort env = inl e ->
             ConfigService.load env = inl e) /\
  (forall cfg n, ConfigService.load env = inr cfg ->
     (Z.abs n <= 2 ^ 53)%Z ->
     JsMap.get "DB_PORT" env = Some (string_of_Z n) ->
     db_port (cfg_database cfg) = Some n).
Proof.
  unfold ConfigService.load. split; [| split; [| split]].
  - intros cfg H.
    destruct (ConfigService.getPort env) as [e | p] eqn:Hp; [discriminate |].
    destruct (ConfigService.getLogLevel env) as [e | l]; [discriminate |].
    injection H as <-. cbn [cfg_port cfg_logLevel]. repeat split;
      apply (getPort_bounds env p Hp).
  - intros p l -> ->. eexists. reflexivity.
  - now intros e ->.
  - intros cfg n H _ Hset.
    destruct (ConfigService.getPort env) as [e | p]; [discriminate |].
    destruct (ConfigService.getLogLevel env) as [e | l]; [discriminate |].
    injection H as <-. cbn [cfg_database db_port].
    pose proof (string_of_Z_nonempty n "") as Hne. rewrite append_empty in Hne.
    rewrite (env_or_set env "DB_PORT" "5432" _ Hset Hne).
    rewrite <- (parseInt10_decimal n "" eq_refl).
    now rewrite append_empty.
Qed.

(** X20: in an environment that sets none of the seven variables, [load]
    returns port 3000, level info and the database localhost:5432,
    app_db, user, password. *)
Theorem load_defaults (env : ProcessEnv) :
  (forall variable,
     In variable ["PORT"; "LOG_LEVEL"; "DB_HOST"; "DB_PORT"; "DB_NAME";
                  "DB_USER"; "DB_PASS"] ->
     JsMap.get variable env = None) ->
  ConfigService.load env =
  inr (mkAppConfig 3000 LogLevel.info
         (mkDatabaseConfig "localhost" (Some 5432%Z) "app_db" "user" "password")).
Proof.
  intros Hunset.
  assert (Hor : forall variable fallback,
             In variable ["PORT"; "LOG_LEVEL"; "DB_HOST"; "DB_PORT"; "DB_NAME";
                          "DB_USER"; "DB_PASS"] ->
             env_or env variable fallback = fallback).
  { intros variable fallback Hin. apply env_or_unset. left. now apply Hunset. }
  unfold ConfigService.load, ConfigService.getPort, ConfigService.getLogLevel.
  rewrite !Hor by (simpl; tauto). reflexivity.
Qed.

Lemma load_defaults_witness :
  ConfigService.load [("HOME", "/root"); ("NODE_ENV", "test")] =
  inr (mkAppConfig 3000 LogLevel.info
         (mkDatabaseConfig "localhost" (Some 5432%Z) "app_db" "user" "password")).
Proof.
  apply (load_defaults [("HOME", "/root"); ("NODE_ENV", "test")]).
  intros variable Hin. simpl in Hin.
  repeat (destruct Hin as [<- | Hin]; [reflexivity |]). destruct Hin.
Defined.

(** ** Properties of the console logger *)

Section LoggerFacts.

Variable toISOString : Date -> string.
Variable JSON_stringify : list (string * JValue) -> string.
Variable stack : JsError -> string.

(** X21: an error is written at every configured level, as one line on
    [console.error]; [info] writes one line on [console.log] exactly when
    the level is debug or info, and nothing otherwise; [warn] writes one
    line on [console.warn] unless the level is error; lowering the
    configured level never silences a message. *)
Theorem logger_filters_by_level (this_level : LogLevel.t) (now : Date)
    (message : string) (err : option JsError)
    (meta : option (list (string * JValue))) :
  ConsoleLogger.error toISOString JSON_stringify stack this_level now message
    err meta =
    [(console_error,
      ConsoleLogger.formatMessage toISOString JSON_stringify now "ERROR" message
        (ConsoleLogger.errorMeta stack err meta))] /\
  ConsoleLogger.info toISOString JSON_stringify this_level now message meta =
    match this_level with
    | LogLevel.debug | LogLevel.info =>
        [(console_log,
          ConsoleLogger.formatMessage toISOString JSON_stringify now "INFO"
            message meta)]
    | _ => []
    end /\
  ConsoleLogger.warn toISOString JSON_stringify this_level now message meta =
    match this_level with
    | LogLevel.error => []
    | _ =>
        [(console_warn,
          ConsoleLogger.formatMessage toISOString JSON_stringify now "WARN"
            message meta)]
    end /\
  (forall lower level,
     (ConsoleLogger.levels lower <= ConsoleLogger.levels this_level)%nat ->
     ConsoleLogger.shouldLog this_level level = true ->
     ConsoleLogger.shouldLog lower level = true).
Proof.
  repeat split.
  - now destruct this_level.
  - now destruct this_level.
  - now destruct this_level.
  - intros lower level Hle Hlog. unfold ConsoleLogger.shouldLog in *.
    apply Nat.leb_le in Hlog. apply Nat.leb_le. lia.
Qed.

(** X22: the metadata an error is logged with carries the message and
    the stack of the error under 'error' and 'stack', in place of
    whatever the caller put under these two keys, and every other entry
    of the caller's metadata as it was; without an error the metadata is
    the caller's. *)
Theorem logger_error_metadata (e : JsError)
    (meta : option (list (string * JValue))) :
  exists logged,
    ConsoleLogger.errorMeta stack (Some e) meta = Some logged /\
    JsMap.get "error" logged = Some (JStr (err_message e)) /\
    JsMap.get "stack" logged = Some (JStr (stack e)) /\
    (forall key, key <> "error" -> key <> "stack" ->
       JsMap.get key logged =
       match meta with Some m => JsMap.get key m | None => None end) /\
    ConsoleLogger.errorMeta stack None meta = meta.
Proof.
  eexists. split; [reflexivity |]. repeat split.
  - rewrite get_set_other by discriminate. apply get_set_same.
  - apply get_set_same.
  - intros key H1 H2. rewrite !get_set_other by congruence.
    now destruct meta.
Qed.

End LoggerFacts.

(** ** The demo run *)

(** X23: whatever the clock shows and whenever the repository was
    seeded, the four responses of [runDemo] are: the two seeded devices;
    device_001; device_001 in MAINTENANCE with the repository's clock
    reading as [lastUpdate] and everything else as seeded; and the
    failure envelope with code 'NotFoundError' for 'non_existent'.  The
    store is left with device_001 updated and device_002 as seeded. *)
Theorem runDemo_responses (zod_message : ZodIssue -> string)
    (clock : DemoClock) (t1 t2 : Date) :
  let device_001 :=
    mkDevice "device_001" "Axial Fan A1" AXIAL_FAN ONLINE t1
      (mkMetadata (Some "Building A") (Some "TechCorp") (Some "AF-100")
                  (Some "1.2.3")) in
  let device_002 :=
    mkDevice "device_002" "Fire Panel Main" FIRE_PANEL ONLINE t2
      (mkMetadata (Some "Control Room") (Some "SafeCorp") (Some "FP-200")
                  (Some "2.1.0")) in
  let updated :=
    mkDevice "device_001" "Axial Fan A1" AXIAL_FAN MAINTENANCE
      (update_repository_now clock)
      (mkMetadata (Some "Building A") (Some "TechCorp") (Some "AF-100")
                  (Some "1.2.3")) in
  Application.runDemo zod_message clock (InMemoryDeviceRepository.new t1 t2) =
  (mkDemoResponses
     (mkResponse true (Some [device_001; device_002]) None (list_now clock))
     (mkResponse true (Some device_001) None (get_now clock))
     (mkResponse true (Some updated) None (update_now clock))
     (mkResponse false None
        (Some (mkApiError "NotFoundError"
                 "Device with id 'non_existent' not found" None))
        (missing_now clock)),
   [("device_001", updated); ("device_002", device_002)]).
Proof.
  reflexivity.
Qed.

(** ** The controller over the in-memory repository *)

(** X24: over the in-memory repository the controller answers
    [getDevice] with the ValidationError envelope for a malformed
    identifier, the NotFoundError envelope naming the identifier for a
    well-formed one the store does not hold, and the stored device
    otherwise, leaving the store as it is; [listDevices] always succeeds
    with every stored device; a failure envelope of [updateDevice] has
    code 'ValidationError' or 'NotFoundError'. *)
Theorem controller_on_in_memory (zod_message : ZodIssue -> string)
    (t1 t2 t3 : Date) (ident body : JValue)
    (devices : InMemoryDeviceRepository.Store) :
  (ValidationService.isValidId ident = false ->
   DeviceController.getDevice InMemoryDeviceRepository.repository t3
     (mkGetRequest ident) devices =
   (mkResponse false None
      (Some (mkApiError "ValidationError" "Invalid device ID format" None)) t3,
    devices)) /\
  (forall s, ident = JStr s -> ValidationService.isValidId ident = true ->
     DeviceController.getDevice InMemoryDeviceRepository.repository t3
       (mkGetRequest ident) devices =
     (match JsMap.get s devices with
      | Some d => mkResponse true (Some d) None t3
      | None =>
          mkResponse false None
            (Some (mkApiError "NotFoundError"
                     ("Device with id '" ++ s ++ "' not found") None)) t3
      end, devices)) /\
  DeviceController.listDevices InMemoryDeviceRepository.repository t3 devices =
    (mkResponse true (Some (JsMap.values devices)) None t3, devices) /\
  (forall err,
     error (fst (DeviceController.updateDevice
                   InMemoryDeviceRepository.repository zod_message t1 t2 t3
                   (mkUpdateRequest ident body) devices)) = Some err ->
     code err = "ValidationError" \/ code err = "NotFoundError").
Proof.
  split; [| split; [| split]].
  - intros Hbad. unfold DeviceController.getDevice. cbn [get_id].
    now rewrite (getDevice_invalid _ ident devices Hbad).
  - intros s -> Hvalid. unfold DeviceController.getDevice. cbn [get_id].
    rewrite (getDevice_valid _ s devices Hvalid).
    cbn [repo_findById InMemoryDeviceRepository.repository].
    unfold InMemoryDeviceRepository.findById.
    now destruct (JsMap.get s devices).
  - reflexivity.
  - intros err. unfold DeviceController.updateDevice.
    cbn [update_id update_body].
    destruct (ValidationService.isValidId ident) eqn:Hvalid.
    + destruct (isValidId_string ident Hvalid) as [s ->].
      destruct (ValidationService.validateDeviceUpdate zod_message body)
        as [e | v] eqn:Hbody.
      * rewrite (updateDevice_invalid_body _ zod_message t1 t2 s body e
                   devices Hvalid Hbody).
        cbn [fst error ResponseBuilder.fromError ResponseBuilder.error].
        intros [= <-]. left. cbn [code].
        exact (proj1 (validation_error_name _ _ _ Hbody)).
      * rewrite (updateDevice_valid _ zod_message t1 t2 s body v devices
                   Hvalid Hbody).
        cbn [repo_findById repo_update InMemoryDeviceRepository.repository].
        unfold InMemoryDeviceRepository.findById, InMemoryDeviceRepository.update.
        destruct (JsMap.get s devices) as [existing |]; cbn.
        -- discriminate.
        -- intros [= <-]. now right.
    + rewrite (updateDevice_invalid_id _ zod_message t1 t2 ident body devices
                 Hvalid).
      cbn. intros [= <-]. now left.
Qed.

(** ** Generated identifiers pass the identifier check *)

Lemma of_uint_acc_lower (d : Decimal.uint) (acc : positive) :
  (Zpos acc * 10 ^ Z.of_nat (Decimal.nb_digits d) <= Zpos (Pos.of_uint_acc d acc))%Z.
Proof.
  revert acc. induction d; intros acc;
    cbn [Decimal.nb_digits Pos.of_uint_acc];
    [rewrite Z.mul_1_r; lia | ..];
    rewrite Nat2Z.inj_succ, Z.pow_succ_r by lia;
    (eapply Z.le_trans; [| apply IHd]);
    assert (0 <= 10 ^ Z.of_nat (Decimal.nb_digits d))%Z
      by (apply Z.pow_nonneg; lia);
    rewrite ?Pos2Z.inj_add, ?Pos2Z.inj_mul; nia.
Qed.

Lemma normalized_lower (d : Decimal.uint) (p : positive) :
  Pos.of_uint d = Npos p -> Decimal.unorm d = d ->
  (10 ^ (Z.of_nat (Decimal.nb_digits d) - 1) <= Zpos p)%Z.
Proof.
  intros Hval Hnorm.
  destruct d; cbn [Pos.of_uint] in Hval; try discriminate;
    try (injection Hval as <-; cbn [Decimal.nb_digits];
         rewrite Nat2Z.inj_succ;
         replace (Z.succ (Z.of_nat (Decimal.nb_digits d)) - 1)%Z
           with (Z.of_nat (Decimal.nb_digits d)) by lia;
         eapply Z.le_trans; [| apply of_uint_acc_lower];
         assert (0 <= 10 ^ Z.of_nat (Decimal.nb_digits d))%Z
           by (apply Z.pow_nonneg; lia);
         lia).
  exfalso. unfold Decimal.unorm in Hnorm. cbn [Decimal.nzhead] in Hnorm.
  pose proof (DecimalFacts.nb_digits_nzhead d) as Hle.
  destruct (Decimal.nzhead d) eqn:Hnz; try discriminate.
  - injection Hnorm as <-. discriminate Hval.
  - injection Hnorm as ->. cbn [Decimal.nb_digits] in Hle. lia.
Qed.

Lemma length_numeral (d : Decimal.uint) :
  String.length (NilEmpty.string_of_uint d) = Decimal.nb_digits d.
Proof.
  induction d; cbn [NilEmpty.string_of_uint String.length Decimal.nb_digits];
    congruence.
Qed.

Lemma length_append (a b : string) :
  String.length (a ++ b) = (String.length a + String.length b)%nat.
Proof.
  induction a as [| c a IH]; simpl; [reflexivity | now rewrite IH].
Qed.

Lemma length_substring (n m : nat) (s : string) :
  (String.length (substring n m s) <= m)%nat.
Proof.
  revert n m. induction s as [| c s IH]; intros n m.
  - destruct n, m; simpl; lia.
  - destruct n, m; simpl; try lia.
    + specialize (IH 0%nat m). lia.
    + apply IH.
    + apply IH.
Qed.

Lemma length_string_of_Z (now : Z) :
  (0 <= now < 10 ^ 19)%Z -> (String.length (string_of_Z now) <= 19)%nat.
Proof.
  intros [Hlo Hhi]. unfold string_of_Z.
  destruct now as [| p | p]; [cbn; lia | | lia].
  cbn [Z.to_int NilZero.string_of_int].
  pose proof (DecimalPos.Unsigned.to_uint_nonnil p) as Hnn.
  replace (NilZero.string_of_uint (Pos.to_uint p))
    with (NilEmpty.string_of_uint (Pos.to_uint p))
    by (destruct (Pos.to_uint p); try reflexivity; contradiction).
  rewrite length_numeral.
  assert (Hnorm : Decimal.unorm (Pos.to_uint p) = Pos.to_uint p).
  { rewrite <- DecimalPos.Unsigned.to_of.
    now rewrite DecimalPos.Unsigned.of_to. }
  pose proof (normalized_lower _ p (DecimalPos.Unsigned.of_to p) Hnorm) as Hlow.
  destruct (Nat.le_gt_cases (Decimal.nb_digits (Pos.to_uint p)) 19) as [Hok | Hbig];
    [exact Hok | exfalso].
  assert (10 ^ 19 <= 10 ^ (Z.of_nat (Decimal.nb_digits (Pos.to_uint p)) - 1))%Z
    by (apply Z.pow_le_mono_r; lia).
  lia.
Qed.

(** X25: an identifier [create] generates at a clock reading of at most
    19 digits passes the identifier check of the service, so the created
    entity can be fetched through the service right away: [getDevice] on
    the returned identifier returns the created entity. *)
Theorem created_device_is_gettable (now : Date) (random36 : string)
    (deviceData : DeviceData) (devices : InMemoryDeviceRepository.Store) :
  (0 <= now < 10 ^ 19)%Z ->
  ValidationService.isValidId
    (JStr (InMemoryDeviceRepository.generateId now random36)) = true /\
  DeviceService.getDevice InMemoryDeviceRepository.repository
    (JStr (id (fst (InMemoryDeviceRepository.create now random36 deviceData devices))))
    (snd (InMemoryDeviceRepository.create now random36 deviceData devices)) =
  (inr (fst (InMemoryDeviceRepository.create now random36 deviceData devices)),
   snd (InMemoryDeviceRepository.create now random36 deviceData devices)).
Proof.
  intros Hnow.
  assert (Hvalid : ValidationService.isValidId
                     (JStr (InMemoryDeviceRepository.generateId now random36)) = true).
  { apply isValidId_spec. eexists. split; [reflexivity |].
    unfold InMemoryDeviceRepository.generateId.
    rewrite !length_append. cbn [String.length].
    pose proof (length_string_of_Z now Hnow).
    pose proof (length_substring 2 9 random36). lia. }
  split; [exact Hvalid |].
  unfold InMemoryDeviceRepository.create. cbn [fst snd id].
  rewrite (getDevice_valid _ _ _ Hvalid).
  cbn [repo_findById InMemoryDeviceRepository.repository].
  unfold InMemoryDeviceRepository.findById. now rewrite get_set_same.
Qed.

Lemma created_device_is_gettable_witness :
  ValidationService.isValidId
    (JStr (InMemoryDeviceRepository.generateId 1700000000000 "0.4fzyo82mvyr")) = true.
Proof.
  refine (proj1 (created_device_is_gettable 1700000000000 "0.4fzyo82mvyr"
                   (mkDeviceData "Device 1" AXIAL_FAN ONLINE 1700000000000
                      (mkMetadata None None None None))
                   (InMemoryDeviceRepository.new 0 0) _)).
  lia.
Defined.
